(** * picoclaw manager: tenant lifecycle service and manifest applier

    A shallow embedding of the Go packages [pkg/manager/tenant],
    [pkg/manager/templates] and [pkg/manager/k8s], and the properties of
    the tenant lifecycle that the specification states about them.

    Go strings and byte slices are [string] (a sequence of 8-bit
    characters, so [String.length] is Go's [len]); Go maps are stdpp's
    [gmap]; a nil pointer or nil map is [None]. Calls into the database
    driver, the template engine, the JSON and YAML codecs and the
    Kubernetes client are threaded through an explicit world state and an
    environment of outcomes. *)

From Stdlib Require Import ZArith Ascii String List Bool Lia.
From stdpp Require Import base option list gmap strings sorting.

Set Default Proof Using "Type".
Local Open Scope string_scope.

(** ** Errors

    The Go code builds every error with [fmt.Errorf]; there are no error
    types. An error is either a value handed back by a collaborator
    (driver, codec, cluster client), an [Errorf] with the format string
    of the source and its arguments, or a [Wrapf]: an [fmt.Errorf] whose
    format ends in [%w], with the cause it wraps. [Panic] is a run-time
    panic, which leaves the function the way an error return does. *)

Inductive error : Type :=
| External (msg : string)
| Errorf (format : string) (args : list string)
| Wrapf (format : string) (args : list string) (cause : error)
| Panic (msg : string).

Inductive result (A : Type) : Type :=
| Ok (a : A)
| Err (e : error).
Arguments Ok {A} a.
Arguments Err {A} e.

(** ** Regular expressions (the fragment of [regexp] that the service uses) *)

Module Regexp.

Inductive regexp : Type :=
| CharClass (p : ascii -> bool)          (* [...] *)
| Concat (r1 r2 : regexp)                (* r1 r2 *)
| Quest (r : regexp)                     (* r? *)
| RepeatUpTo (n : nat) (r : regexp).     (* r{0,n} *)

(** Backtracking matcher in continuation-passing style: [matchk r s k]
    holds when some prefix of [s] matches [r] and [k] accepts the rest. *)
Fixpoint matchk (r : regexp) (s : list ascii) (k : list ascii -> bool) : bool :=
  match r with
  | CharClass p =>
      match s with
      | c :: s' => p c && k s'
      | [] => false
      end
  | Concat r1 r2 => matchk r1 s (fun s' => matchk r2 s' k)
  | Quest r1 => matchk r1 s k || k s
  | RepeatUpTo n r1 =>
      (fix rep (n : nat) (s : list ascii) {struct n} : bool :=
         match n with
         | O => k s
         | S n' => matchk r1 s (rep n') || k s
         end) n s
  end.

Definition at_end (s : list ascii) : bool :=
  match s with [] => true | _ => false end.

(** [MatchString] for a pattern written [^r$]: without the multi-line
    flag, [^] and [$] are the beginning and the end of the text, so the
    whole string has to match [r]. *)
Definition MatchString (r : regexp) (s : string) : bool :=
  matchk r (list_ascii_of_string s) at_end.

Definition in_range (lo hi c : ascii) : bool :=
  (nat_of_ascii lo <=? nat_of_ascii c)%nat && (nat_of_ascii c <=? nat_of_ascii hi)%nat.

End Regexp.
Import Regexp.

(** [[a-z0-9]] *)
Definition lower_alnum (c : ascii) : bool :=
  in_range "a" "z" c || in_range "0" "9" c.

(** [[a-z0-9\-]] *)
Definition lower_alnum_hyphen (c : ascii) : bool :=
  in_range "a" "z" c || in_range "0" "9" c || Ascii.eqb c "-".

(** [var dnsNameRegex = regexp.MustCompile(`^[a-z0-9]([a-z0-9\-]{0,61}[a-z0-9])?$`)] *)
Definition dnsNameRegex : regexp :=
  Concat (CharClass lower_alnum)
         (Quest (Concat (RepeatUpTo 61 (CharClass lower_alnum_hyphen))
                        (CharClass lower_alnum))).

(** ** Data model (types.go) *)

Record Resources : Type := mkResources {
  AgentCPU : string;
  AgentMemory : string;
  GatewayCPU : string;
  GatewayMemory : string;
  WorkspaceSize : string
}.

(** Untyped JSON values, the [interface{}] trees that [encoding/json]
    produces and consumes. [VInt] is a Go [int] placed in a tree by the
    program; [VFloat] is a decoded [float64], kept by its bit pattern
    (the service never computes with it). *)
#[warnings="-register-all"]
Inductive value : Type :=
| VNull
| VBool (b : bool)
| VInt (n : Z)
| VFloat (bits : Z)
| VString (s : string)
| VArray (l : list value)
| VObject (m : gmap string value).

(** [map[string]interface{}] *)
Abbreviation object := (gmap string value).

Record Tenant : Type := mkTenant {
  ID : string;
  DisplayName : string;
  Namespace : string;
  ConfigJSON : string;
  TResources : Resources;
  Status : string;
  CreatedAt : Z;
  UpdatedAt : Z
}.

Record TenantVars : Type := mkTenantVars {
  v_TenantID : string;
  v_Namespace : string;
  v_ConfigJSON : string;
  v_Image : string;
  v_AgentReplicas : Z;
  v_AgentCPU : string;
  v_AgentMemory : string;
  v_GatewayCPU : string;
  v_GatewayMemory : string;
  v_WorkspaceSize : string;
  v_Labels : gmap string string
}.

Definition DefaultResources : Resources :=
  {| AgentCPU := "500m";
     AgentMemory := "1Gi";
     GatewayCPU := "250m";
     GatewayMemory := "512Mi";
     WorkspaceSize := "500Mi" |}.

Definition ToVars (t : Tenant) (image : string) : TenantVars :=
  {| v_TenantID := ID t;
     v_Namespace := Namespace t;
     v_ConfigJSON := ConfigJSON t;
     v_Image := image;
     v_AgentReplicas := 1;
     v_AgentCPU := AgentCPU (TResources t);
     v_AgentMemory := AgentMemory (TResources t);
     v_GatewayCPU := GatewayCPU (TResources t);
     v_GatewayMemory := GatewayMemory (TResources t);
     v_WorkspaceSize := WorkspaceSize (TResources t);
     v_Labels := <["picoclaw.io/tenant" := ID t]>
                   {["app.kubernetes.io/managed-by" := "picoclaw-manager"]} |}.

(** ** Pure helpers of service.go *)

(** [validateTenantID]; [None] is the nil error. *)
Definition validateTenantID (id : string) : option error :=
  if String.eqb id "" then
    Some (Errorf "tenant_id is required" [])
  else if (53 <? String.length id)%nat then
    Some (Errorf "tenant_id too long (max 53 characters)" [])
  else if negb (MatchString dnsNameRegex id) then
    Some (Errorf "tenant_id must be a valid DNS subdomain (lowercase alphanumeric and hyphens)" [])
  else None.

Definition mergeResources (base override : Resources) : Resources :=
  let base := if negb (String.eqb (AgentCPU override) "")
              then {| AgentCPU := AgentCPU override; AgentMemory := AgentMemory base;
                      GatewayCPU := GatewayCPU base; GatewayMemory := GatewayMemory base;
                      WorkspaceSize := WorkspaceSize base |}
              else base in
  let base := if negb (String.eqb (AgentMemory override) "")
              then {| AgentCPU := AgentCPU base; AgentMemory := AgentMemory override;
                      GatewayCPU := GatewayCPU base; GatewayMemory := GatewayMemory base;
                      WorkspaceSize := WorkspaceSize base |}
              else base in
  let base := if negb (String.eqb (GatewayCPU override) "")
              then {| AgentCPU := AgentCPU base; AgentMemory := AgentMemory base;
                      GatewayCPU := GatewayCPU override; GatewayMemory := GatewayMemory base;
                      WorkspaceSize := WorkspaceSize base |}
              else base in
  let base := if negb (String.eqb (GatewayMemory override) "")
              then {| AgentCPU := AgentCPU base; AgentMemory := AgentMemory base;
                      GatewayCPU := GatewayCPU base; GatewayMemory := GatewayMemory override;
                      WorkspaceSize := WorkspaceSize base |}
              else base in
  let base := if negb (String.eqb (WorkspaceSize override) "")
              then {| AgentCPU := AgentCPU base; AgentMemory := AgentMemory base;
                      GatewayCPU := GatewayCPU base; GatewayMemory := GatewayMemory base;
                      WorkspaceSize := WorkspaceSize override |}
              else base in
  base.

(** [CreateRequest] and [UpdateRequest]; a nil map or pointer is [None]. *)
Record CreateRequest : Type := mkCreateRequest {
  c_TenantID : string;
  c_DisplayName : string;
  c_Providers : option object;
  c_Agents : option object;
  c_Channels : option object;
  c_Resources : option Resources
}.

Record UpdateRequest : Type := mkUpdateRequest {
  u_DisplayName : string;
  u_Providers : option object;
  u_Agents : option object;
  u_Channels : option object;
  u_Resources : option Resources
}.

(** ** The world outside the process *)

(** A row of the [tenants] table; the primary key [id] is the key of the
    map that holds the rows. The [resources] column holds the JSON
    encoding of a [Resources] struct, which the store encodes on write
    and decodes on read. *)
Record Row : Type := mkRow {
  display_name : string;
  namespace : string;
  config_json : string;
  resources : Resources;
  status : string;
  created_at : Z;
  updated_at : Z
}.

(** [meta.RESTScopeName] *)
Inductive Scope : Type := ScopeNamespace | ScopeRoot.

(** Requests issued to the cluster API, in the order of issue. *)
Inductive Call : Type :=
| RESTMappingCall (group kind version : string)
| PatchCall (resource : string) (ns : option string) (name : string)
            (data : string) (fieldManager : string)
| NamespaceDeleteCall (name : string).

Record World : Type := mkWorld {
  tenants : gmap string Row;
  calls : list Call
}.

(** [unstructured.Unstructured], by what its accessors return:
    [GroupVersionKind], [GetKind], [GetNamespace], [GetName], and the
    object itself. *)
Record Unstructured : Type := mkUnstructured {
  GetGroup : string;
  GetVersion : string;
  GetKind : string;
  GetNamespace : string;
  GetName : string;
  Object : object
}.

(** Statements sent to the database. *)
Inductive Stmt : Type :=
| SelectTenant (id : string)
| SelectTenants
| InsertTenant (t : Tenant)
| UpdateTenant (t : Tenant)
| DeleteTenant (id : string).

(** What the collaborators answer during one call of the service: the
    clock, the database driver, [encoding/json], [text/template], the YAML
    utilities of apimachinery, discovery and the cluster API. The code
    under verification is the same for every environment. *)
Record Env : Type := mkEnv {
  (* [time.Now()] in [Service.Create] and in [Store.Update] *)
  service_Now : Z;
  store_Now : Z;
  (* the error of [db.Exec] / [QueryRow] / [Query] other than a
     constraint violation, if any *)
  db_error : Stmt -> option error;
  (* [json.Unmarshal] into a [map[string]interface{}] variable that is
     nil before the call: JSON [null] leaves it nil *)
  json_Unmarshal : string -> result (option object);
  json_MarshalIndent : object -> result string;
  (* [template.ExecuteTemplate]: the text written for a named template *)
  ExecuteTemplate : string -> TenantVars -> result string;
  (* [YAMLReader.Read] until [io.EOF]: the chunks or errors returned *)
  YAMLReader_Read : string -> list (result string);
  (* [bytes.TrimSpace] and [strings.TrimSpace] *)
  TrimSpace : string -> string;
  yaml_ToJSON : string -> result string;
  UnmarshalJSON : string -> result Unstructured;
  MarshalJSON : Unstructured -> result string;
  (* [discovery.NewDiscoveryClientForConfig] *)
  NewDiscoveryClientForConfig : option error;
  (* [mapper.RESTMapping]: plural resource name and scope *)
  RESTMapping : string -> string -> string -> result (string * Scope);
  (* the answer of the cluster API to a request, given the requests
     issued before it *)
  api_error : list Call -> Call -> option error
}.

(** ** Computations: world-passing with Go's [if err != nil { return }] *)

Definition M (A : Type) : Type := World -> result A * World.

Definition ret {A} (a : A) : M A := fun w => (Ok a, w).
Definition fail {A} (e : error) : M A := fun w => (Err e, w).
Definition bind {A B} (m : M A) (f : A -> M B) : M B :=
  fun w =>
    match m w with
    | (Ok a, w') => f a w'
    | (Err e, w') => (Err e, w')
    end.

Declare Scope go_scope.
Delimit Scope go_scope with go.
Notation "'do' x <- c ;; k" := (bind c (fun x => k))
  (at level 10, x name, c at level 99, k at level 200) : go_scope.

(** [if err != nil { return fmt.Errorf(format, args..., err) }] *)
Definition wrap {A} (format : string) (args : list string) (m : M A) : M A :=
  fun w =>
    match m w with
    | (Ok a, w') => (Ok a, w')
    | (Err e, w') => (Err (Wrapf format args e), w')
    end.

(** A call whose error the caller inspects or drops instead of returning. *)
Definition try {A} (m : M A) : M (result A) :=
  fun w => let '(r, w') := m w in (Ok r, w').

Definition lift {A} (r : result A) : M A := fun w => (r, w).

Definition newline : string := String (ascii_of_nat 10) "".

(** [templateNames] of renderer.go *)
Definition templateNames : list string :=
  [ "namespace.yaml.tmpl";
    "configmap.yaml.tmpl";
    "pvc.yaml.tmpl";
    "rbac.yaml.tmpl";
    "agent-deployment.yaml.tmpl";
    "gateway-deployment.yaml.tmpl";
    "gateway-service.yaml.tmpl" ].

Definition tenant_of_row (id : string) (r : Row) : Tenant :=
  {| ID := id;
     DisplayName := display_name r;
     Namespace := namespace r;
     ConfigJSON := config_json r;
     TResources := resources r;
     Status := status r;
     CreatedAt := created_at r;
     UpdatedAt := updated_at r |}.

Definition row_of_tenant (t : Tenant) : Row :=
  {| display_name := DisplayName t;
     namespace := Namespace t;
     config_json := ConfigJSON t;
     resources := TResources t;
     status := Status t;
     created_at := CreatedAt t;
     updated_at := UpdatedAt t |}.

Definition set_DisplayName (v : string) (t : Tenant) : Tenant :=
  {| ID := ID t; DisplayName := v; Namespace := Namespace t;
     ConfigJSON := ConfigJSON t; TResources := TResources t;
     Status := Status t; CreatedAt := CreatedAt t; UpdatedAt := UpdatedAt t |}.

Definition set_ConfigJSON (v : string) (t : Tenant) : Tenant :=
  {| ID := ID t; DisplayName := DisplayName t; Namespace := Namespace t;
     ConfigJSON := v; TResources := TResources t;
     Status := Status t; CreatedAt := CreatedAt t; UpdatedAt := UpdatedAt t |}.

Definition set_Resources (v : Resources) (t : Tenant) : Tenant :=
  {| ID := ID t; DisplayName := DisplayName t; Namespace := Namespace t;
     ConfigJSON := ConfigJSON t; TResources := v;
     Status := Status t; CreatedAt := CreatedAt t; UpdatedAt := UpdatedAt t |}.

Definition set_Status (v : string) (t : Tenant) : Tenant :=
  {| ID := ID t; DisplayName := DisplayName t; Namespace := Namespace t;
     ConfigJSON := ConfigJSON t; TResources := TResources t;
     Status := v; CreatedAt := CreatedAt t; UpdatedAt := UpdatedAt t |}.

Definition set_UpdatedAt (v : Z) (t : Tenant) : Tenant :=
  {| ID := ID t; DisplayName := DisplayName t; Namespace := Namespace t;
     ConfigJSON := ConfigJSON t; TResources := TResources t;
     Status := Status t; CreatedAt := CreatedAt t; UpdatedAt := v |}.

(** [existing[key] = m] when [m] is not nil. *)
Definition assign (key : string) (m : option object) (config : object) : object :=
  match m with
  | Some m => <[key := VObject m]> config
  | None => config
  end.

(** [namespace TEXT NOT NULL UNIQUE] *)
Definition namespace_taken (ns : string) (m : gmap string Row) : bool :=
  bool_decide (map_Exists (fun _ r => namespace r = ns) m).

(** [ORDER BY created_at] *)
Definition created_le (a b : Tenant) : Prop := (CreatedAt a <= CreatedAt b)%Z.

#[global] Instance created_le_dec : RelDecision created_le.
Proof. intros a b. unfold created_le. apply Z_le_dec. Defined.

Section Manager.

Context (E : Env) (image : string).

Local Open Scope go_scope.

(** ** store.go *)

Definition Store_Get (id : string) : M (option Tenant) :=
  fun w =>
    match db_error E (SelectTenant id) with
    | Some err => (Err (Wrapf "get tenant: %w" [] err), w)
    | None => (Ok (tenant_of_row id <$> tenants w !! id), w)
    end.

Definition Store_List : M (list Tenant) :=
  fun w =>
    match db_error E SelectTenants with
    | Some err => (Err (Wrapf "list tenants: %w" [] err), w)
    | None =>
        (Ok (merge_sort created_le
               ((fun kr => tenant_of_row kr.1 kr.2) <$> map_to_list (tenants w))), w)
    end.

(** [INSERT INTO tenants ...]: the primary key and the unique namespace
    are enforced by the table. *)
Definition Store_Create (t : Tenant) : M unit :=
  fun w =>
    match db_error E (InsertTenant t) with
    | Some err => (Err (Wrapf "insert tenant: %w" [] err), w)
    | None =>
        if bool_decide (is_Some (tenants w !! ID t)) then
          (Err (Wrapf "insert tenant: %w" []
                  (External "duplicate key value violates unique constraint tenants_pkey")), w)
        else if namespace_taken (Namespace t) (tenants w) then
          (Err (Wrapf "insert tenant: %w" []
                  (External "duplicate key value violates unique constraint tenants_namespace_key")), w)
        else
          (Ok tt, {| tenants := <[ID t := row_of_tenant t]> (tenants w); calls := calls w |})
    end.

(** [Store.Update] writes [UpdatedAt] through the pointer it is given
    before it runs the statement, so the caller's struct changes whether
    or not the statement succeeds: the struct is returned next to the
    error. The statement leaves [namespace] and [created_at] alone. *)
Definition Store_Update (t : Tenant) : World -> (Tenant * option error) * World :=
  fun w =>
    let t := set_UpdatedAt (store_Now E) t in
    match db_error E (UpdateTenant t) with
    | Some err => ((t, Some (Wrapf "update tenant: %w" [] err)), w)
    | None =>
        match tenants w !! ID t with
        | None => ((t, Some (Errorf "tenant %q not found" [ID t])), w)
        | Some r =>
            ((t, None),
             {| tenants := <[ID t := {| display_name := DisplayName t;
                                        namespace := namespace r;
                                        config_json := ConfigJSON t;
                                        resources := TResources t;
                                        status := Status t;
                                        created_at := created_at r;
                                        updated_at := UpdatedAt t |}]> (tenants w);
                calls := calls w |})
        end
    end.

Definition Store_Delete (id : string) : M unit :=
  fun w =>
    match db_error E (DeleteTenant id) with
    | Some err => (Err (Wrapf "delete tenant: %w" [] err), w)
    | None =>
        match tenants w !! id with
        | None => (Err (Errorf "tenant %q not found" [id]), w)
        | Some _ => (Ok tt, {| tenants := delete id (tenants w); calls := calls w |})
        end
    end.

(** ** renderer.go *)

(** The loop of [RenderAll] from index [i] on, [buf] being the buffer. *)
Fixpoint RenderAll_from (names : list string) (i : nat) (buf : string)
         (vars : TenantVars) : result string :=
  match names with
  | [] => Ok buf
  | name :: names' =>
      let buf := if (0 <? i)%nat then buf ++ "---" ++ newline else buf in
      match ExecuteTemplate E name vars with
      | Err err => Err (Wrapf "render template %s: %w" [name] err)
      | Ok out => RenderAll_from names' (S i) (buf ++ out) vars
      end
  end.

Definition RenderAll (vars : TenantVars) : result string :=
  RenderAll_from templateNames 0 "" vars.

(** ** applier.go *)

(** The [for] loop of [parseYAMLDocuments] over what the reader returns,
    [objects] being the slice built so far. *)
Fixpoint parseYAMLDocuments_loop (reads : list (result string))
         (objects : list Unstructured) : result (list Unstructured) :=
  match reads with
  | [] => Ok objects
  | Err err :: _ => Err err
  | Ok doc :: reads' =>
      let doc := TrimSpace E doc in
      if (String.length doc =? 0)%nat || String.eqb (TrimSpace E doc) "---" then
        parseYAMLDocuments_loop reads' objects
      else
        match yaml_ToJSON E doc with
        | Err err => Err (Wrapf "convert YAML to JSON: %w" [] err)
        | Ok jsonData =>
            match UnmarshalJSON E jsonData with
            | Err err => Err (Wrapf "unmarshal JSON: %w" [] err)
            | Ok obj =>
                if String.eqb (GetKind obj) "" then
                  parseYAMLDocuments_loop reads' objects
                else
                  parseYAMLDocuments_loop reads' (objects ++ [obj])
            end
        end
  end.

Definition parseYAMLDocuments (data : string) : result (list Unstructured) :=
  parseYAMLDocuments_loop (YAMLReader_Read E data) [].

Definition buildMapper : M unit :=
  match NewDiscoveryClientForConfig E with
  | Some err => fail err
  | None => ret tt
  end.

(** A request to the cluster API: issued, then answered. *)
Definition request (c : Call) : M unit :=
  fun w =>
    let w' := {| tenants := tenants w; calls := calls w ++ [c] |} in
    match api_error E (calls w) c with
    | Some err => (Err err, w')
    | None => (Ok tt, w')
    end.

(** A discovery lookup: issued, and answered by [RESTMapping]. *)
Definition discover (c : Call) : M unit :=
  fun w => (Ok tt, {| tenants := tenants w; calls := calls w ++ [c] |}).

(** [gvk.String()] *)
Definition gvk_String (obj : Unstructured) : string :=
  GetGroup obj ++ "/" ++ GetVersion obj ++ ", Kind=" ++ GetKind obj.

Definition mapper_RESTMapping (obj : Unstructured) : M (string * Scope) :=
  do _ <- discover (RESTMappingCall (GetGroup obj) (GetKind obj) (GetVersion obj));;
  lift (RESTMapping E (GetGroup obj) (GetKind obj) (GetVersion obj)).

(** The body of the [for _, obj := range objects] loop of [Apply]. *)
Definition Apply_one (obj : Unstructured) : M unit :=
  do mapping <- wrap "find REST mapping for %s: %w" [gvk_String obj]
                  (mapper_RESTMapping obj);;
  let dr_namespace :=
    match mapping.2 with
    | ScopeNamespace => Some (GetNamespace obj)
    | ScopeRoot => None
    end in
  do data <- wrap "marshal %s/%s: %w" [GetKind obj; GetName obj]
               (lift (MarshalJSON E obj));;
  wrap "apply %s/%s: %w" [GetKind obj; GetName obj]
    (request (PatchCall mapping.1 dr_namespace (GetName obj) data "picoclaw-manager")).

Fixpoint Apply_loop (objects : list Unstructured) : M unit :=
  match objects with
  | [] => ret tt
  | obj :: objects' => do _ <- Apply_one obj;; Apply_loop objects'
  end.

Definition Apply (manifests : string) : M unit :=
  do objects <- wrap "parse manifests: %w" [] (lift (parseYAMLDocuments manifests));;
  do _ <- wrap "build REST mapper: %w" [] buildMapper;;
  Apply_loop objects.

Definition DeleteNamespace (ns : string) : M unit :=
  wrap "delete namespace %s: %w" [ns] (request (NamespaceDeleteCall ns)).

(** ** service.go *)

(** [json.MarshalIndent(config, "    ", "  ")] of the gateway skeleton
    with the supplied sections. *)
Definition buildConfigJSON (providers agents channels : option object) : result string :=
  let config : object :=
    {[ "gateway" := VObject (<["port" := VInt 18790]> {["host" := VString "0.0.0.0"]}) ]} in
  let config := assign "providers" providers config in
  let config := assign "agents" agents config in
  let config := assign "channels" channels config in
  json_MarshalIndent E config.

(** The [Tenant] literal of [Create]. *)
Definition Create_tenant (req : CreateRequest) (configJSON : string) : Tenant :=
  {| ID := c_TenantID req;
     DisplayName := c_DisplayName req;
     Namespace := "picoclaw-tenant-" ++ c_TenantID req;
     ConfigJSON := configJSON;
     TResources := match c_Resources req with
                   | Some r => mergeResources DefaultResources r
                   | None => DefaultResources
                   end;
     Status := "provisioning";
     CreatedAt := service_Now E;
     UpdatedAt := service_Now E |}.

Definition Create (req : CreateRequest) : M Tenant :=
  match validateTenantID (c_TenantID req) with
  | Some err => fail err
  | None =>
      if String.eqb (c_DisplayName req) "" then
        fail (Errorf "display_name is required" [])
      else
        do existing <- wrap "check existing: %w" [] (Store_Get (c_TenantID req));;
        match existing with
        | Some _ => fail (Errorf "tenant %q already exists" [c_TenantID req])
        | None =>
            do configJSON <- wrap "build config: %w" []
                               (lift (buildConfigJSON (c_Providers req) (c_Agents req)
                                        (c_Channels req)));;
            let t := Create_tenant req configJSON in
            let vars := ToVars t image in
            do manifests <- wrap "render templates: %w" [] (lift (RenderAll vars));;
            do _ <- wrap "apply manifests: %w" [] (Apply manifests);;
            do stored <- try (Store_Create t);;
            match stored with
            | Err err =>
                (* Best-effort cleanup: delete the namespace if DB insert fails. *)
                do _ <- try (DeleteNamespace (Namespace t));;
                fail (Wrapf "store tenant: %w" [] err)
            | Ok _ =>
                let t := set_Status "active" t in
                fun w => let '((t, _), w') := Store_Update t w in (Ok t, w')
            end
        end
  end.

Definition Get (id : string) : M (option Tenant) :=
  do t <- Store_Get id;;
  match t with
  | None => ret None
  | Some t => ret (Some t)
  end.

Definition List : M (list Tenant) := Store_List.

(** The block of [Update] that rebuilds the configuration document. *)
Definition Update_config (req : UpdateRequest) (t : Tenant) : M Tenant :=
  if bool_decide (is_Some (u_Providers req)) || bool_decide (is_Some (u_Agents req))
     || bool_decide (is_Some (u_Channels req)) then
    do existing <- wrap "unmarshal existing config: %w" []
                     (lift (json_Unmarshal E (ConfigJSON t)));;
    match existing with
    | None => fail (Panic "assignment to entry in nil map")
    | Some existing =>
        let existing := assign "providers" (u_Providers req) existing in
        let existing := assign "agents" (u_Agents req) existing in
        let existing := assign "channels" (u_Channels req) existing in
        do configJSON <- wrap "marshal config: %w" [] (lift (json_MarshalIndent E existing));;
        ret (set_ConfigJSON configJSON t)
    end
  else ret t.

Definition Update (id : string) (req : UpdateRequest) : M Tenant :=
  do t <- Store_Get id;;
  match t with
  | None => fail (Errorf "tenant %q not found" [id])
  | Some t =>
      let t := if negb (String.eqb (u_DisplayName req) "")
               then set_DisplayName (u_DisplayName req) t else t in
      do t <- Update_config req t;;
      let t := match u_Resources req with
               | Some r => set_Resources (mergeResources (TResources t) r) t
               | None => t
               end in
      let vars := ToVars t image in
      do manifests <- wrap "render templates: %w" [] (lift (RenderAll vars));;
      do _ <- wrap "apply manifests: %w" [] (Apply manifests);;
      fun w =>
        match Store_Update t w with
        | ((_, Some err), w') => (Err (Wrapf "store update: %w" [] err), w')
        | ((t, None), w') => (Ok t, w')
        end
  end.

Definition Delete (id : string) : M unit :=
  do t <- Store_Get id;;
  match t with
  | None => fail (Errorf "tenant %q not found" [id])
  | Some t =>
      do _ <- wrap "delete namespace: %w" [] (DeleteNamespace (Namespace t));;
      Store_Delete id
  end.

End Manager.

(** ** The error taxonomy of the specification

    The code has no error types: the class of an error is the place that
    produced it. *)

Definition ValidationError (e : error) : Prop :=
  e = Errorf "tenant_id is required" [] \/
  e = Errorf "tenant_id too long (max 53 characters)" [] \/
  e = Errorf "tenant_id must be a valid DNS subdomain (lowercase alphanumeric and hyphens)" [] \/
  e = Errorf "display_name is required" [].

Definition ConflictError (e : error) : Prop :=
  exists id, e = Errorf "tenant %q already exists" [id].

Definition NotFoundError (e : error) : Prop :=
  exists id, e = Errorf "tenant %q not found" [id].

(** An error of the store, wrapped where the service calls the store. *)
Definition PersistenceError (e : error) : Prop :=
  exists cause,
    e = Wrapf "check existing: %w" [] cause \/
    e = Wrapf "store tenant: %w" [] cause \/
    e = Wrapf "store update: %w" [] cause.

(** An error of the cluster, wrapped where the service calls the applier. *)
Definition RemoteError (e : error) : Prop :=
  exists cause,
    e = Wrapf "apply manifests: %w" [] cause \/
    e = Wrapf "delete namespace: %w" [] cause.

(** ** Vocabulary of the properties *)

(** [p{0,n}] followed by [k], written out. *)
Fixpoint upto (p : ascii -> bool) (k : list ascii -> bool) (n : nat)
         (s : list ascii) : bool :=
  match n with
  | O => k s
  | S n' =>
      match s with
      | c :: s' => p c && upto p k n' s'
      | [] => false
      end || k s
  end.

(** The shape of the strings that [dnsNameRegex] accepts: one character
    of [[a-z0-9]], or such a character, at most 61 characters of
    [[a-z0-9\-]], and again a character of [[a-z0-9]]. *)
Definition dns_shape (l : list ascii) : Prop :=
  (exists c, l = [c] /\ lower_alnum c = true) \/
  (exists c mid d, l = c :: (mid ++ [d])%list /\ lower_alnum c = true /\
                   length mid <= 61 /\ forallb lower_alnum_hyphen mid = true /\
                   lower_alnum d = true).

Definition last_alnum (s : list ascii) : bool :=
  matchk (CharClass lower_alnum) s at_end.

(** [[A-Z]] *)
Definition is_upper (c : ascii) : bool := in_range "A" "Z" c.

(** The violations of the DNS-label grammar (lowercase alphanumeric
    characters and hyphens, not starting or ending with a hyphen): a
    character outside [[a-z0-9\-]] somewhere, such as an uppercase letter
    or an underscore, a hyphen in front, a hyphen at the end. *)
Definition violates_grammar (id : string) : Prop :=
  (exists pre c suf, id = pre ++ String c suf /\ lower_alnum_hyphen c = false) \/
  (exists rest, id = "-" ++ rest) \/
  (exists pre, id = pre ++ "-").

Definition is_patch (c : Call) : bool :=
  match c with
  | PatchCall _ _ _ _ _ => true
  | _ => false
  end.

Definition has_kind (obj : Unstructured) : bool :=
  negb (String.eqb (GetKind obj) "").

Section ApplierVocabulary.

Context (E : Env).

(** The request [c] is the server-side apply of [obj]: a patch of the
    resource that discovery maps its kind to, in the namespace of the
    document when the resource is namespaced, named after the document,
    carrying its JSON, under the fixed field manager. *)
Definition submits (c : Call) (obj : Unstructured) : Prop :=
  exists resource scope data,
    RESTMapping E (GetGroup obj) (GetKind obj) (GetVersion obj) = Ok (resource, scope) /\
    MarshalJSON E obj = Ok data /\
    c = PatchCall resource
          (match scope with
           | ScopeNamespace => Some (GetNamespace obj)
           | ScopeRoot => None
           end)
          (GetName obj) data "picoclaw-manager".

(** The documents of a stream in the words of the specification: the
    chunks of the reader, trimmed, without the empty ones and the bare
    separators, each converted to its structured form. *)
Definition document (chunk : result string) : option Unstructured :=
  match chunk with
  | Err _ => None
  | Ok doc =>
      let doc := TrimSpace E doc in
      if (String.length doc =? 0)%nat || String.eqb (TrimSpace E doc) "---" then None
      else match yaml_ToJSON E doc with
           | Err _ => None
           | Ok jsonData =>
               match UnmarshalJSON E jsonData with
               | Err _ => None
               | Ok obj => Some obj
               end
           end
  end.

Definition documents (data : string) : list Unstructured :=
  omap document (YAMLReader_Read E data).

End ApplierVocabulary.

(** The tenant that [Update] has in hand before it touches the
    configuration: the stored one, renamed if the request says so. *)
Definition Update_renamed (id : string) (req : UpdateRequest) (r : Row) : Tenant :=
  if negb (String.eqb (u_DisplayName req) "")
  then set_DisplayName (u_DisplayName req) (tenant_of_row id r)
  else tenant_of_row id r.

(** The tenant that [Update] renders and stores, [t] being the tenant
    after the configuration block. *)
Definition Update_merged (req : UpdateRequest) (t : Tenant) : Tenant :=
  match u_Resources req with
  | Some r => set_Resources (mergeResources (TResources t) r) t
  | None => t
  end.

(** ** A concrete environment

    Collaborators used to run the service on concrete requests: every
    template renders its own name on a line, the reader cuts the stream
    at the lines [---], and a chunk decodes to an object whose kind is
    taken from the template it came from; a chunk that comes from no
    template has no kind, and the decoder refuses it. *)

Module Demo.

Definition is_space (c : ascii) : bool :=
  let n := nat_of_ascii c in
  (n =? 32)%nat || ((9 <=? n)%nat && (n <=? 13)%nat).

Fixpoint trim_left (l : list ascii) : list ascii :=
  match l with
  | c :: l' => if is_space c then trim_left l' else l
  | [] => []
  end.

Definition trim (s : string) : string :=
  string_of_list_ascii
    (rev (trim_left (rev (trim_left (list_ascii_of_string s))))).

(** The lines of [s], [cur] being the line read so far. *)
Fixpoint lines (s : string) (cur : string) : list string :=
  match s with
  | EmptyString => [cur]
  | String c s' =>
      if (nat_of_ascii c =? 10)%nat then cur :: lines s' ""
      else lines s' (cur ++ String c "")
  end.

(** Chunks between separator lines, [cur] being the chunk read so far. *)
Fixpoint chunks (ls : list string) (cur : string) : list (result string) :=
  match ls with
  | [] => [Ok cur]
  | l :: ls' =>
      if String.eqb l "---" then Ok cur :: chunks ls' ""
      else chunks ls' (cur ++ l ++ newline)
  end.

Definition kind_of (doc : string) : string :=
  if String.eqb doc "namespace.yaml.tmpl" then "Namespace"
  else if String.eqb doc "configmap.yaml.tmpl" then "ConfigMap"
  else if String.eqb doc "pvc.yaml.tmpl" then "PersistentVolumeClaim"
  else if String.eqb doc "rbac.yaml.tmpl" then "RoleBinding"
  else if String.eqb doc "agent-deployment.yaml.tmpl" then "Deployment"
  else if String.eqb doc "gateway-deployment.yaml.tmpl" then "Deployment"
  else if String.eqb doc "gateway-service.yaml.tmpl" then "Service"
  else "".

(** An object without a kind is refused, as [UnmarshalJSON] of
    [unstructured.Unstructured] refuses it. *)
Definition decode (doc : string) : result Unstructured :=
  if String.eqb (kind_of doc) "" then Err (External "Object 'Kind' is missing")
  else Ok {| GetGroup := ""; GetVersion := "v1"; GetKind := kind_of doc;
             GetNamespace := "picoclaw-tenant-acme"; GetName := doc; Object := ∅ |}.

Definition mapping (kind : string) : string * Scope :=
  if String.eqb kind "Namespace" then ("namespaces", ScopeRoot)
  else (kind, ScopeNamespace).

(** The document that the decoder finds in every stored configuration. *)
Definition stored_config : object :=
  <["agents" := VObject {["defaults" := VObject {["model" := VString "small"]}]}]>
    (<["providers" := VObject (<["openai" := VObject {["api_key" := VString "k1"]}]>
                                 {["zhipu" := VObject {["api_key" := VString "k0"]}]})]>
       {["gateway" := VObject (<["port" := VInt 18790]> {["host" := VString "0.0.0.0"]})]}).

(** The encoder writes the top-level keys of a document. *)
Definition encode (doc : object) : string :=
  "{" ++ String.concat "," (map_to_list doc).*1 ++ "}".

Definition env : Env :=
  {| service_Now := 100;
     store_Now := 101;
     db_error := fun _ => None;
     json_Unmarshal := fun _ => Ok (Some stored_config);
     json_MarshalIndent := fun doc => Ok (encode doc);
     ExecuteTemplate := fun name _ => Ok (name ++ newline);
     YAMLReader_Read := fun data => chunks (lines data "") "";
     TrimSpace := trim;
     yaml_ToJSON := fun doc => Ok doc;
     UnmarshalJSON := decode;
     MarshalJSON := fun obj => Ok (GetName obj);
     NewDiscoveryClientForConfig := None;
     RESTMapping := fun _ kind _ => Ok (mapping kind);
     api_error := fun _ _ => None |}.

(** The same collaborators, with a database that refuses every
    [INSERT] and a cluster that answers [cluster] to every request. *)
Definition failing_insert (cluster : option error) : Env :=
  {| service_Now := service_Now env;
     store_Now := store_Now env;
     db_error := fun q => match q with
                          | InsertTenant _ => Some (External "connection refused")
                          | _ => None
                          end;
     json_Unmarshal := json_Unmarshal env;
     json_MarshalIndent := json_MarshalIndent env;
     ExecuteTemplate := ExecuteTemplate env;
     YAMLReader_Read := YAMLReader_Read env;
     TrimSpace := TrimSpace env;
     yaml_ToJSON := yaml_ToJSON env;
     UnmarshalJSON := UnmarshalJSON env;
     MarshalJSON := MarshalJSON env;
     NewDiscoveryClientForConfig := None;
     RESTMapping := RESTMapping env;
     api_error := fun _ c => match c with
                             | NamespaceDeleteCall _ => cluster
                             | _ => None
                             end |}.

Definition image : string := "huy2408/picoclaw:latest".

(** The configuration text of a tenant created without sections. *)
Definition config : string := "{gateway}".

(** The row that [Create] leaves for [acme]. *)
Definition acme_row : Row :=
  {| display_name := "ACME"; namespace := "picoclaw-tenant-acme"; config_json := config;
     resources := DefaultResources; status := "active";
     created_at := 100; updated_at := 101 |}.

(** A stream with an empty chunk between two documents. *)
Definition stream : string :=
  "namespace.yaml.tmpl" ++ newline ++ "---" ++ newline ++ newline ++ "---" ++ newline ++
  "configmap.yaml.tmpl" ++ newline.

(** A stream with a chunk without a kind between two documents. *)
Definition stray_stream : string :=
  "namespace.yaml.tmpl" ++ newline ++ "---" ++ newline ++
  "stray" ++ newline ++ "---" ++ newline ++ "configmap.yaml.tmpl" ++ newline.

Definition empty_world : World := {| tenants := ∅; calls := [] |}.

Definition acme : CreateRequest :=
  {| c_TenantID := "acme"; c_DisplayName := "ACME";
     c_Providers := None; c_Agents := None; c_Channels := None;
     c_Resources := None |}.

(** What the templates render for [acme]. *)
Definition acme_manifests : string :=
  Eval vm_compute in
    match RenderAll env (ToVars (Create_tenant env acme config) image) with
    | Ok manifests => manifests
    | Err _ => ""
    end.

(** The world after these manifests have been applied to the empty
    cluster. *)
Definition applied_world : World := (Apply env acme_manifests empty_world).2.

(** The world after [acme] has been created in the empty world. *)
Definition acme_world : World := (Create env image acme empty_world).2.

End Demo.

(** ** The rest of the applier and of the service *)

Definition dquote : string := String (ascii_of_nat 34) "".

Definition quoted (s : string) : string := dquote ++ s ++ dquote.

(** The strategic-merge patch of [RestartDeployment],
    [{"spec":{"template":{"metadata":{"annotations":{"kubectl.kubernetes.io/restartedAt":"%s"}}}}}],
    [restartedAt] being [metav1.Now()] in the layout of the source. *)
Definition restart_patch (restartedAt : string) : string :=
  "{" ++ quoted "spec" ++ ":{" ++ quoted "template" ++ ":{" ++ quoted "metadata" ++ ":{" ++
  quoted "annotations" ++ ":{" ++ quoted "kubectl.kubernetes.io/restartedAt" ++ ":" ++
  quoted restartedAt ++ "}}}}}".

Section Restart.

Context (E : Env).

(** [RestartDeployment]: a patch of the deployment through the typed
    client, with empty [PatchOptions] (no field manager). *)
Definition RestartDeployment (restartedAt ns name : string) : M unit :=
  wrap "restart deployment %s/%s: %w" [ns; name]
    (request E (PatchCall "deployments" (Some ns) name (restart_patch restartedAt) "")).

(** [Service.Restart]; [agentAt] and [gatewayAt] are the clock readings
    of the two calls of [RestartDeployment]. *)
Definition Restart (agentAt gatewayAt : string) (id : string) : M unit :=
  bind (Store_Get E id) (fun t =>
    match t with
    | None => fail (Errorf "tenant %q not found" [id])
    | Some t =>
        bind (wrap "restart agent: %w" []
                (RestartDeployment agentAt (Namespace t) "picoclaw-agent"))
             (fun _ => wrap "restart gateway: %w" []
                         (RestartDeployment gatewayAt (Namespace t) "picoclaw-gateway"))
    end).

(** [RenderOne] of renderer.go *)
Definition RenderOne (name : string) (vars : TenantVars) : result string :=
  match ExecuteTemplate E name vars with
  | Err err => Err (Wrapf "render template %s: %w" [name] err)
  | Ok out => Ok out
  end.

End Restart.

(** ** The API layer (types.go, middleware.go, handlers.go) *)

Record ResourcesRequest : Type := mkResourcesRequest {
  rq_AgentCPU : string;
  rq_AgentMemory : string;
  rq_GatewayCPU : string;
  rq_GatewayMemory : string;
  rq_WorkspaceSize : string
}.

Record CreateTenantRequest : Type := mkCreateTenantRequest {
  ct_TenantID : string;
  ct_DisplayName : string;
  ct_Providers : option object;
  ct_Agents : option object;
  ct_Channels : option object;
  ct_Resources : option ResourcesRequest
}.

Record UpdateTenantRequest : Type := mkUpdateTenantRequest {
  ut_DisplayName : string;
  ut_Providers : option object;
  ut_Agents : option object;
  ut_Channels : option object;
  ut_Resources : option ResourcesRequest
}.

Record ResourcesResponse : Type := mkResourcesResponse {
  rs_AgentCPU : string;
  rs_AgentMemory : string;
  rs_GatewayCPU : string;
  rs_GatewayMemory : string;
  rs_WorkspaceSize : string
}.

Record TenantResponse : Type := mkTenantResponse {
  tr_ID : string;
  tr_DisplayName : string;
  tr_Namespace : string;
  tr_Status : string;
  tr_Resources : ResourcesResponse;
  tr_CreatedAt : Z;
  tr_UpdatedAt : Z
}.

(** The [Error] field of an [ErrorResponse]: a literal of the source,
    [err.Error()], or ["invalid json: " + err.Error()]. *)
Inductive ErrorText : Type :=
| Literal (msg : string)
| ErrorOf (err : error)
| InvalidJSON (err : error).

(** What a handler writes: the value given to [writeJSON], or nothing
    after a bare [WriteHeader]. *)
Inductive Body : Type :=
| TenantBody (t : TenantResponse)
| TenantsBody (l : list TenantResponse)
| ErrorBody (e : ErrorText)
| MapBody (m : gmap string string)
| NoBody.

Record Response : Type := mkResponse {
  StatusCode : nat;
  ResponseBody : Body
}.

Definition writeJSON (status : nat) (v : Body) : Response :=
  {| StatusCode := status; ResponseBody := v |}.

(** A handler, once the router has extracted its inputs. *)
Abbreviation Handler := (World -> Response * World).

(** [strings.CutPrefix] *)
Fixpoint CutPrefix_from (s prefix : string) {struct prefix} : option string :=
  match prefix with
  | EmptyString => Some s
  | String a prefix' =>
      match s with
      | EmptyString => None
      | String b s' => if Ascii.eqb a b then CutPrefix_from s' prefix' else None
      end
  end.

Definition CutPrefix (s prefix : string) : string * bool :=
  match CutPrefix_from s prefix with
  | Some after => (after, true)
  | None => (s, false)
  end.

(** [subtle.ConstantTimeCompare]: 1 when the two slices have equal
    contents, 0 otherwise. *)
Definition ConstantTimeCompare (x y : string) : Z :=
  if String.eqb x y then 1%Z else 0%Z.

(** [APIKeyAuth(apiKey)(next)], [auth] being the value of the
    [Authorization] header (empty when the header is absent). *)
Definition APIKeyAuth (apiKey : string) (next : Handler) (auth : string) : Handler :=
  fun w =>
    if String.eqb auth "" then
      (writeJSON 401 (ErrorBody (Literal "missing authorization header")), w)
    else
      let '(token, found) := CutPrefix auth "Bearer " in
      if negb found then
        (writeJSON 401
           (ErrorBody (Literal "invalid authorization format, expected Bearer <token>")), w)
      else if negb (ConstantTimeCompare token apiKey =? 1)%Z then
        (writeJSON 403 (ErrorBody (Literal "invalid api key")), w)
      else next w.

Definition toTenantResponse (t : Tenant) : TenantResponse :=
  {| tr_ID := ID t;
     tr_DisplayName := DisplayName t;
     tr_Namespace := Namespace t;
     tr_Status := Status t;
     tr_Resources :=
       {| rs_AgentCPU := AgentCPU (TResources t);
          rs_AgentMemory := AgentMemory (TResources t);
          rs_GatewayCPU := GatewayCPU (TResources t);
          rs_GatewayMemory := GatewayMemory (TResources t);
          rs_WorkspaceSize := WorkspaceSize (TResources t) |};
     tr_CreatedAt := CreatedAt t;
     tr_UpdatedAt := UpdatedAt t |}.

(** The copy of [req.Resources] into a [*tenant.Resources]. *)
Definition to_Resources (r : option ResourcesRequest) : option Resources :=
  match r with
  | None => None
  | Some r =>
      Some {| AgentCPU := rq_AgentCPU r;
              AgentMemory := rq_AgentMemory r;
              GatewayCPU := rq_GatewayCPU r;
              GatewayMemory := rq_GatewayMemory r;
              WorkspaceSize := rq_WorkspaceSize r |}
  end.

(** The methods of [Handlers]. *)
Module Handlers.

Section WithService.

Context (E : Env) (image : string).

(** [CreateTenant]; [decoded] is what [json.NewDecoder(r.Body).Decode]
    returns. *)
Definition CreateTenant (decoded : result CreateTenantRequest) : Handler :=
  fun w =>
    match decoded with
    | Err err => (writeJSON 400 (ErrorBody (InvalidJSON err)), w)
    | Ok req =>
        match Create E image
                {| c_TenantID := ct_TenantID req;
                   c_DisplayName := ct_DisplayName req;
                   c_Providers := ct_Providers req;
                   c_Agents := ct_Agents req;
                   c_Channels := ct_Channels req;
                   c_Resources := to_Resources (ct_Resources req) |} w with
        | (Err err, w') => (writeJSON 500 (ErrorBody (ErrorOf err)), w')
        | (Ok t, w') => (writeJSON 201 (TenantBody (toTenantResponse t)), w')
        end
    end.

Definition ListTenants : Handler :=
  fun w =>
    match List E w with
    | (Err err, w') => (writeJSON 500 (ErrorBody (ErrorOf err)), w')
    | (Ok tenants, w') => (writeJSON 200 (TenantsBody (toTenantResponse <$> tenants)), w')
    end.

(** [GetTenant]; [id] is [chi.URLParam(r, "id")]. *)
Definition GetTenant (id : string) : Handler :=
  fun w =>
    match Get E id w with
    | (Err err, w') => (writeJSON 500 (ErrorBody (ErrorOf err)), w')
    | (Ok None, w') => (writeJSON 404 (ErrorBody (Literal "tenant not found")), w')
    | (Ok (Some t), w') => (writeJSON 200 (TenantBody (toTenantResponse t)), w')
    end.

Definition UpdateTenant (id : string) (decoded : result UpdateTenantRequest) : Handler :=
  fun w =>
    match decoded with
    | Err err => (writeJSON 400 (ErrorBody (InvalidJSON err)), w)
    | Ok req =>
        match Update E image id
                {| u_DisplayName := ut_DisplayName req;
                   u_Providers := ut_Providers req;
                   u_Agents := ut_Agents req;
                   u_Channels := ut_Channels req;
                   u_Resources := to_Resources (ut_Resources req) |} w with
        | (Err err, w') => (writeJSON 500 (ErrorBody (ErrorOf err)), w')
        | (Ok t, w') => (writeJSON 200 (TenantBody (toTenantResponse t)), w')
        end
    end.

Definition DeleteTenant (id : string) : Handler :=
  fun w =>
    match Delete E id w with
    | (Err err, w') => (writeJSON 500 (ErrorBody (ErrorOf err)), w')
    | (Ok _, w') => ({| StatusCode := 204; ResponseBody := NoBody |}, w')
    end.

Definition RestartTenant (agentAt gatewayAt : string) (id : string) : Handler :=
  fun w =>
    match Restart E agentAt gatewayAt id w with
    | (Err err, w') => (writeJSON 500 (ErrorBody (ErrorOf err)), w')
    | (Ok _, w') => (writeJSON 200 (MapBody {["status" := "restarting"]}), w')
    end.

Definition HealthCheck : Handler :=
  fun w => (writeJSON 200 (MapBody {["status" := "ok"]}), w).

End WithService.

End Handlers.

(** ** Vocabulary of the further properties *)

(** One field of [mergeResources]. *)
Definition pick (base override : string) : string :=
  if String.eqb override "" then base else override.

(** The tenant that a successful [Create] returns, [cfg] being the
    configuration text. *)
Definition Create_result (E : Env) (req : CreateRequest) (cfg : string) : Tenant :=
  set_UpdatedAt (store_Now E) (set_Status "active" (Create_tenant E req cfg)).

(** No field of the resource limits is empty. *)
Definition populated (r : Resources) : Prop :=
  AgentCPU r <> "" /\ AgentMemory r <> "" /\ GatewayCPU r <> "" /\
  GatewayMemory r <> "" /\ WorkspaceSize r <> "".

(** Every row carries the namespace derived from its key. *)
Definition well_named (m : gmap string Row) : Prop :=
  map_Forall (fun id r => namespace r = "picoclaw-tenant-" ++ id) m.

(** The section of an update request that is stored under [key]. *)
Definition supplied (req : UpdateRequest) (key : string) : option object :=
  if String.eqb key "providers" then u_Providers req
  else if String.eqb key "agents" then u_Agents req
  else if String.eqb key "channels" then u_Channels req
  else None.

(** The gateway block of every new configuration. *)
Definition gateway_block : value :=
  VObject (<["port" := VInt 18790]> {["host" := VString "0.0.0.0"]}).

(** [sep] and an output, for each output. *)
Fixpoint join_after (sep : string) (outs : list string) : string :=
  match outs with
  | [] => ""
  | out :: outs' => sep ++ out ++ join_after sep outs'
  end.

(** The requests of one round of the loop of [Apply] that goes through:
    the discovery lookup and the patch. *)
Definition apply_calls (E : Env) (obj : Unstructured) : list Call :=
  match RESTMapping E (GetGroup obj) (GetKind obj) (GetVersion obj), MarshalJSON E obj with
  | Ok (resource, scope), Ok data =>
      [ RESTMappingCall (GetGroup obj) (GetKind obj) (GetVersion obj);
        PatchCall resource
          (match scope with
           | ScopeNamespace => Some (GetNamespace obj)
           | ScopeRoot => None
           end)
          (GetName obj) data "picoclaw-manager" ]
  | _, _ => []
  end.

(** The two requests that [Restart] issues for a namespace. *)
Definition restart_agent (agentAt ns : string) : Call :=
  PatchCall "deployments" (Some ns) "picoclaw-agent" (restart_patch agentAt) "".

Definition restart_gateway (gatewayAt ns : string) : Call :=
  PatchCall "deployments" (Some ns) "picoclaw-gateway" (restart_patch gatewayAt) "".

Module Demo2.

(** The collaborators of [Demo.env], with a database that refuses every
    [UPDATE]. *)
Definition failing_update : Env :=
  {| service_Now := service_Now Demo.env;
     store_Now := store_Now Demo.env;
     db_error := fun q => match q with
                          | UpdateTenant _ => Some (External "connection reset")
                          | _ => None
                          end;
     json_Unmarshal := json_Unmarshal Demo.env;
     json_MarshalIndent := json_MarshalIndent Demo.env;
     ExecuteTemplate := ExecuteTemplate Demo.env;
     YAMLReader_Read := YAMLReader_Read Demo.env;
     TrimSpace := TrimSpace Demo.env;
     yaml_ToJSON := yaml_ToJSON Demo.env;
     UnmarshalJSON := UnmarshalJSON Demo.env;
     MarshalJSON := MarshalJSON Demo.env;
     NewDiscoveryClientForConfig := None;
     RESTMapping := RESTMapping Demo.env;
     api_error := api_error Demo.env |}.

(** The same, with a database that refuses every [DELETE]. *)
Definition failing_delete : Env :=
  {| service_Now := service_Now Demo.env;
     store_Now := store_Now Demo.env;
     db_error := fun q => match q with
                          | DeleteTenant _ => Some (External "connection reset")
                          | _ => None
                          end;
     json_Unmarshal := json_Unmarshal Demo.env;
     json_MarshalIndent := json_MarshalIndent Demo.env;
     ExecuteTemplate := ExecuteTemplate Demo.env;
     YAMLReader_Read := YAMLReader_Read Demo.env;
     TrimSpace := TrimSpace Demo.env;
     yaml_ToJSON := yaml_ToJSON Demo.env;
     UnmarshalJSON := UnmarshalJSON Demo.env;
     MarshalJSON := MarshalJSON Demo.env;
     NewDiscoveryClientForConfig := None;
     RESTMapping := RESTMapping Demo.env;
     api_error := api_error Demo.env |}.

(** A cluster that refuses the restart of the agent. *)
Definition failing_agent : Env :=
  {| service_Now := service_Now Demo.env;
     store_Now := store_Now Demo.env;
     db_error := db_error Demo.env;
     json_Unmarshal := json_Unmarshal Demo.env;
     json_MarshalIndent := json_MarshalIndent Demo.env;
     ExecuteTemplate := ExecuteTemplate Demo.env;
     YAMLReader_Read := YAMLReader_Read Demo.env;
     TrimSpace := TrimSpace Demo.env;
     yaml_ToJSON := yaml_ToJSON Demo.env;
     UnmarshalJSON := UnmarshalJSON Demo.env;
     MarshalJSON := MarshalJSON Demo.env;
     NewDiscoveryClientForConfig := None;
     RESTMapping := RESTMapping Demo.env;
     api_error := fun _ c => match c with
                             | PatchCall _ _ name _ _ =>
                                 if String.eqb name "picoclaw-agent"
                                 then Some (External "deployments.apps not found")
                                 else None
                             | _ => None
                             end |}.

(** A decoder that finds JSON [null] in every stored configuration. *)
Definition null_config : Env :=
  {| service_Now := service_Now Demo.env;
     store_Now := store_Now Demo.env;
     db_error := db_error Demo.env;
     json_Unmarshal := fun _ => Ok None;
     json_MarshalIndent := json_MarshalIndent Demo.env;
     ExecuteTemplate := ExecuteTemplate Demo.env;
     YAMLReader_Read := YAMLReader_Read Demo.env;
     TrimSpace := TrimSpace Demo.env;
     yaml_ToJSON := yaml_ToJSON Demo.env;
     UnmarshalJSON := UnmarshalJSON Demo.env;
     MarshalJSON := MarshalJSON Demo.env;
     NewDiscoveryClientForConfig := None;
     RESTMapping := RESTMapping Demo.env;
     api_error := api_error Demo.env |}.

(** A template engine that cannot execute the PVC template. *)
Definition failing_pvc : Env :=
  {| service_Now := service_Now Demo.env;
     store_Now := store_Now Demo.env;
     db_error := db_error Demo.env;
     json_Unmarshal := json_Unmarshal Demo.env;
     json_MarshalIndent := json_MarshalIndent Demo.env;
     ExecuteTemplate := fun name vars =>
                          if String.eqb name "pvc.yaml.tmpl"
                          then Err (External "template: no such template")
                          else ExecuteTemplate Demo.env name vars;
     YAMLReader_Read := YAMLReader_Read Demo.env;
     TrimSpace := TrimSpace Demo.env;
     yaml_ToJSON := yaml_ToJSON Demo.env;
     UnmarshalJSON := UnmarshalJSON Demo.env;
     MarshalJSON := MarshalJSON Demo.env;
     NewDiscoveryClientForConfig := None;
     RESTMapping := RESTMapping Demo.env;
     api_error := api_error Demo.env |}.

(** A cluster that refuses the patch of the volume claim. *)
Definition failing_patch : Env :=
  {| service_Now := service_Now Demo.env;
     store_Now := store_Now Demo.env;
     db_error := db_error Demo.env;
     json_Unmarshal := json_Unmarshal Demo.env;
     json_MarshalIndent := json_MarshalIndent Demo.env;
     ExecuteTemplate := ExecuteTemplate Demo.env;
     YAMLReader_Read := YAMLReader_Read Demo.env;
     TrimSpace := TrimSpace Demo.env;
     yaml_ToJSON := yaml_ToJSON Demo.env;
     UnmarshalJSON := UnmarshalJSON Demo.env;
     MarshalJSON := MarshalJSON Demo.env;
     NewDiscoveryClientForConfig := None;
     RESTMapping := RESTMapping Demo.env;
     api_error := fun _ c => match c with
                             | PatchCall resource _ _ _ _ =>
                                 if String.eqb resource "PersistentVolumeClaim"
                                 then Some (External "forbidden")
                                 else None
                             | _ => None
                             end |}.

Definition agentAt : string := "2026-01-01T00:00:00Z".
Definition gatewayAt : string := "2026-01-01T00:00:01Z".

(** A request for one more tenant, with two limits of its own. *)
Definition globex : CreateRequest :=
  {| c_TenantID := "globex"; c_DisplayName := "Globex";
     c_Providers := None; c_Agents := None; c_Channels := None;
     c_Resources := Some {| AgentCPU := "2"; AgentMemory := ""; GatewayCPU := "";
                            GatewayMemory := "1Gi"; WorkspaceSize := "" |} |}.

End Demo2.

(** * Properties *)

Ltac splits := repeat match goal with |- _ /\ _ => split end.

(** ** Strings as character lists *)

Lemma list_ascii_of_string_app (a b : string) :
  list_ascii_of_string (a ++ b) = (list_ascii_of_string a ++ list_ascii_of_string b)%list.
Proof. induction a as [|c a IH]; simpl; [reflexivity | now rewrite IH]. Qed.

Lemma length_list_ascii_of_string (s : string) :
  length (list_ascii_of_string s) = String.length s.
Proof. induction s as [|c s IH]; simpl; [reflexivity | now rewrite IH]. Qed.

Lemma string_length_app (a b : string) :
  String.length (a ++ b) = String.length a + String.length b.
Proof. induction a as [|c a IH]; simpl; [reflexivity | now rewrite IH]. Qed.

(** ** The regular expression of tenant IDs *)

Module RegexpFacts.

Lemma matchk_RepeatUpTo_class p n s k :
  matchk (RepeatUpTo n (CharClass p)) s k = upto p k n s.
Proof.
  revert s. induction n as [|n IH]; intros s; [reflexivity|].
  simpl. destruct s as [|c s']; [reflexivity|].
  simpl in IH. now rewrite IH.
Qed.

Lemma upto_true p k n s :
  upto p k n s = true <->
  exists pre suf, s = (pre ++ suf)%list /\ length pre <= n /\
                  forallb p pre = true /\ k suf = true.
Proof.
  revert s. induction n as [|n IH]; intros s; simpl.
  - split.
    + intros H. exists [], s. repeat split; auto.
    + intros (pre & suf & -> & Hlen & _ & Hk).
      destruct pre; [exact Hk | simpl in Hlen; lia].
  - rewrite orb_true_iff. split.
    + intros [H | H].
      * destruct s as [|c s']; [discriminate|].
        apply andb_true_iff in H as [Hc H]. apply IH in H.
        destruct H as (pre & suf & -> & Hlen & Hall & Hk).
        exists (c :: pre), suf. simpl. rewrite Hc, Hall. repeat split; auto; lia.
      * exists [], s. repeat split; auto. simpl; lia.
    + intros (pre & suf & -> & Hlen & Hall & Hk).
      destruct pre as [|c pre]; [right; exact Hk|].
      left. simpl in *. apply andb_true_iff in Hall as [Hc Hall].
      rewrite Hc. simpl. apply IH. exists pre, suf. repeat split; auto; lia.
Qed.

Lemma matchk_dnsNameRegex_cons c l :
  matchk dnsNameRegex (c :: l) at_end =
  lower_alnum c &&
    (matchk (RepeatUpTo 61 (CharClass lower_alnum_hyphen)) l last_alnum || at_end l).
Proof. reflexivity. Qed.

Lemma matchk_dnsNameRegex (l : list ascii) :
  matchk dnsNameRegex l at_end = true <-> dns_shape l.
Proof.
  unfold dns_shape.
  destruct l as [|c l].
  { split; [discriminate|]. intros [(c & H & _) | (c & mid & d & H & _)]; discriminate. }
  rewrite matchk_dnsNameRegex_cons.
  rewrite andb_true_iff, orb_true_iff.
  rewrite matchk_RepeatUpTo_class, upto_true. unfold last_alnum.
  split.
  - intros [Hc [H | H]].
    + destruct H as (pre & suf & -> & Hlen & Hall & Hk).
      destruct suf as [|d [|? ?]]; simpl in Hk; try discriminate.
      * right. exists c, pre, d. rewrite andb_true_r in Hk. auto.
      * rewrite andb_false_r in Hk. discriminate.
    + destruct l; [|discriminate]. left. exists c. auto.
  - intros [(c' & H & Hc) | (c' & mid & d & H & Hc & Hlen & Hall & Hd)];
      injection H as -> ->.
    + split; auto.
    + split; auto. left. exists mid, [d]. simpl. rewrite Hd. auto.
Qed.

Lemma MatchString_dnsNameRegex (s : string) :
  MatchString dnsNameRegex s = true <-> dns_shape (list_ascii_of_string s).
Proof. apply matchk_dnsNameRegex. Qed.

Lemma lower_alnum_hyphen_of_alnum c : lower_alnum c = true -> lower_alnum_hyphen c = true.
Proof. unfold lower_alnum, lower_alnum_hyphen. intros ->. reflexivity. Qed.

(** Every character of an accepted string is in [[a-z0-9\-]]. *)
Lemma dns_shape_chars l : dns_shape l -> forallb lower_alnum_hyphen l = true.
Proof.
  intros [(c & -> & Hc) | (c & mid & d & -> & Hc & _ & Hall & Hd)]; simpl.
  - now rewrite lower_alnum_hyphen_of_alnum.
  - rewrite forallb_app, Hall. simpl.
    now rewrite !lower_alnum_hyphen_of_alnum.
Qed.

Lemma dns_shape_length l : dns_shape l -> 1 <= length l <= 63.
Proof.
  intros [(c & -> & Hc) | (c & mid & d & -> & Hc & Hlen & _)]; simpl.
  - lia.
  - rewrite length_app. simpl. lia.
Qed.

Lemma dns_shape_first l : dns_shape l -> exists c, head l = Some c /\ lower_alnum c = true.
Proof.
  intros [(c & -> & Hc) | (c & mid & d & -> & Hc & _)]; exists c; auto.
Qed.

Lemma dns_shape_last l : dns_shape l -> exists d, last l = Some d /\ lower_alnum d = true.
Proof.
  intros [(c & -> & Hc) | (c & mid & d & -> & _ & _ & _ & Hd)].
  - exists c; auto.
  - exists d. split; [|assumption].
    change (c :: (mid ++ [d])%list) with ((c :: mid) ++ [d])%list.
    apply last_snoc.
Qed.

End RegexpFacts.

(** ** validateTenantID *)

Lemma validateTenantID_Some (id : string) (e : error) :
  validateTenantID id = Some e -> ValidationError e.
Proof.
  unfold validateTenantID, ValidationError.
  destruct (String.eqb id ""); [intros [= <-]; auto|].
  destruct (53 <? String.length id)%nat; [intros [= <-]; auto|].
  destruct (MatchString dnsNameRegex id); simpl; [discriminate | intros [= <-]; auto].
Qed.

Lemma validateTenantID_None (id : string) :
  validateTenantID id = None ->
  String.length id <= 53 /\ MatchString dnsNameRegex id = true.
Proof.
  unfold validateTenantID.
  destruct (String.eqb id ""); [discriminate|].
  destruct (53 <? String.length id)%nat eqn:Hlen; [discriminate|].
  destruct (MatchString dnsNameRegex id); simpl; [|discriminate].
  intros _. apply Nat.ltb_ge in Hlen. auto.
Qed.

(** Uppercase letters and the underscore are outside [[a-z0-9\-]]. *)
Lemma upper_not_in_class (c : ascii) :
  is_upper c = true \/ c = "_"%char -> lower_alnum_hyphen c = false.
Proof.
  intros [H | ->]; [|reflexivity].
  destruct c as [[] [] [] [] [] [] [] []]; vm_compute in H; try discriminate; reflexivity.
Qed.

Lemma upper_violates_grammar (pre suf : string) (c : ascii) :
  is_upper c = true \/ c = "_"%char -> violates_grammar (pre ++ String c suf).
Proof.
  intros H. left. exists pre, c, suf. split; [reflexivity|].
  now apply upper_not_in_class.
Qed.

Lemma violates_grammar_no_match (id : string) :
  violates_grammar id -> MatchString dnsNameRegex id = false.
Proof.
  intros Hv. destruct (MatchString dnsNameRegex id) eqn:Hm; [exfalso|reflexivity].
  apply RegexpFacts.MatchString_dnsNameRegex in Hm.
  destruct Hv as [(pre & c & suf & -> & Hc) | [(rest & ->) | (pre & ->)]].
  - apply RegexpFacts.dns_shape_chars in Hm.
    rewrite list_ascii_of_string_app in Hm. simpl in Hm.
    rewrite forallb_app in Hm. simpl in Hm.
    rewrite Hc in Hm. simpl in Hm.
    rewrite andb_false_r in Hm. discriminate.
  - apply RegexpFacts.dns_shape_first in Hm as (c & Hhd & Hc).
    simpl in Hhd. injection Hhd as <-. discriminate.
  - apply RegexpFacts.dns_shape_last in Hm as (d & Hl & Hd).
    rewrite list_ascii_of_string_app in Hl. simpl in Hl.
    rewrite last_snoc in Hl. injection Hl as <-. discriminate.
Qed.

Lemma validateTenantID_rejects (id : string) :
  violates_grammar id \/ 53 < String.length id ->
  exists e, validateTenantID id = Some e /\ ValidationError e.
Proof.
  intros H. destruct (validateTenantID id) as [e|] eqn:Hv.
  - exists e. split; [reflexivity|]. exact (validateTenantID_Some id e Hv).
  - apply validateTenantID_None in Hv as [Hlen Hm].
    destruct H as [H | H]; [|lia].
    apply violates_grammar_no_match in H. congruence.
Qed.

(** ** mergeResources *)

(** C2. The merge of resource limits is field-wise: each field of the
    result is the base field when the override field is the empty string
    and the override field otherwise; and an override whose only
    non-empty field is [agent_memory] changes that field and keeps the
    other four. *)
Theorem C2_mergeResources_fieldwise (base override : Resources) :
  (AgentCPU (mergeResources base override) =
     if String.eqb (AgentCPU override) "" then AgentCPU base else AgentCPU override) /\
  (AgentMemory (mergeResources base override) =
     if String.eqb (AgentMemory override) "" then AgentMemory base else AgentMemory override) /\
  (GatewayCPU (mergeResources base override) =
     if String.eqb (GatewayCPU override) "" then GatewayCPU base else GatewayCPU override) /\
  (GatewayMemory (mergeResources base override) =
     if String.eqb (GatewayMemory override) "" then GatewayMemory base
     else GatewayMemory override) /\
  (WorkspaceSize (mergeResources base override) =
     if String.eqb (WorkspaceSize override) "" then WorkspaceSize base
     else WorkspaceSize override) /\
  (AgentCPU override = "" -> AgentMemory override <> "" -> GatewayCPU override = "" ->
   GatewayMemory override = "" -> WorkspaceSize override = "" ->
   mergeResources base override =
   {| AgentCPU := AgentCPU base;
      AgentMemory := AgentMemory override;
      GatewayCPU := GatewayCPU base;
      GatewayMemory := GatewayMemory base;
      WorkspaceSize := WorkspaceSize base |}).
Proof.
  destruct base as [b1 b2 b3 b4 b5], override as [o1 o2 o3 o4 o5].
  unfold mergeResources; simpl.
  repeat split;
    try (destruct (String.eqb o1 ""), (String.eqb o2 ""), (String.eqb o3 ""),
           (String.eqb o4 ""), (String.eqb o5 ""); reflexivity).
  intros -> H2 -> -> ->. simpl.
  destruct (String.eqb_spec o2 ""); [contradiction | reflexivity].
Qed.

Lemma C2_mergeResources_fieldwise_witness :
  mergeResources DefaultResources
    {| AgentCPU := ""; AgentMemory := "2Gi"; GatewayCPU := "";
       GatewayMemory := ""; WorkspaceSize := "" |} =
  {| AgentCPU := "500m"; AgentMemory := "2Gi"; GatewayCPU := "250m";
     GatewayMemory := "512Mi"; WorkspaceSize := "500Mi" |}.
Proof.
  apply (C2_mergeResources_fieldwise DefaultResources
           {| AgentCPU := ""; AgentMemory := "2Gi"; GatewayCPU := "";
              GatewayMemory := ""; WorkspaceSize := "" |});
    simpl; congruence.
Defined.

Example Demo_Create_acme :
  (Create Demo.env Demo.image Demo.acme Demo.empty_world).1 =
  Ok {| ID := "acme"; DisplayName := "ACME"; Namespace := "picoclaw-tenant-acme";
        ConfigJSON := "{gateway}"; TResources := DefaultResources; Status := "active";
        CreatedAt := 100; UpdatedAt := 101 |}.
Proof. vm_compute. reflexivity. Qed.

Example Demo_Create_acme_calls :
  length (calls Demo.acme_world) = 14.
Proof. vm_compute. reflexivity. Qed.

(** ** The store and the applier, step by step *)

Section Steps.

Context (E : Env) (image : string).

Lemma Store_Get_answer (id : string) (w : World) :
  db_error E (SelectTenant id) = None ->
  Store_Get E id w = (Ok (tenant_of_row id <$> tenants w !! id), w).
Proof. intros H. unfold Store_Get. now rewrite H. Qed.

Lemma Store_Get_world (id : string) (w : World) : (Store_Get E id w).2 = w.
Proof. unfold Store_Get. now destruct (db_error E (SelectTenant id)). Qed.

(** A failed [INSERT] leaves the table as it was, and its error is the
    driver's or the constraint's, wrapped once. *)
Lemma Store_Create_Err (t : Tenant) (w w' : World) (err : error) :
  Store_Create E t w = (Err err, w') ->
  w' = w /\ exists cause, err = Wrapf "insert tenant: %w" [] cause.
Proof.
  unfold Store_Create.
  destruct (db_error E (InsertTenant t)); [intros [= <- <-]; eauto|].
  destruct (bool_decide _); [intros [= <- <-]; eauto|].
  destruct (namespace_taken _ _); [intros [= <- <-]; eauto | discriminate].
Qed.

Lemma Store_Create_Ok (t : Tenant) (w w' : World) :
  Store_Create E t w = (Ok tt, w') ->
  tenants w !! ID t = None /\
  w' = {| tenants := <[ID t := row_of_tenant t]> (tenants w); calls := calls w |}.
Proof.
  unfold Store_Create.
  destruct (db_error E (InsertTenant t)); [discriminate|].
  destruct (bool_decide _) eqn:Hkey; [discriminate|].
  destruct (namespace_taken _ _); [discriminate|].
  intros [= <-]. split; [|reflexivity].
  apply bool_decide_eq_false in Hkey. now apply eq_None_not_Some.
Qed.

(** [Store.Update] touches nothing but the row of its tenant, and never
    the list of cluster requests. *)
Lemma Store_Update_calls (t : Tenant) (w : World) :
  calls (Store_Update E t w).2 = calls w.
Proof.
  unfold Store_Update.
  destruct (db_error E _); [reflexivity|].
  now destruct (tenants w !! _).
Qed.

Lemma Store_Update_tenant (t : Tenant) (w : World) :
  (Store_Update E t w).1.1 = set_UpdatedAt (store_Now E) t.
Proof.
  unfold Store_Update.
  destruct (db_error E _); [reflexivity|].
  now destruct (tenants w !! _).
Qed.

Lemma Store_Update_is_Some (t : Tenant) (w : World) (id : string) :
  is_Some (tenants w !! id) -> is_Some (tenants (Store_Update E t w).2 !! id).
Proof.
  intros H. unfold Store_Update.
  destruct (db_error E _); [exact H|].
  destruct (tenants w !! ID (set_UpdatedAt _ t)) eqn:Hr; [|exact H].
  simpl. destruct (decide (ID t = id)) as [<- | Hne].
  - rewrite lookup_insert_eq. eauto.
  - now rewrite lookup_insert_ne.
Qed.

Lemma request_world (c : Call) (w : World) :
  (request E c w).2 = {| tenants := tenants w; calls := calls w ++ [c] |}.
Proof. unfold request. now destruct (api_error E (calls w) c). Qed.

Lemma DeleteNamespace_world (ns : string) (w : World) :
  (DeleteNamespace E ns w).2 =
  {| tenants := tenants w; calls := calls w ++ [NamespaceDeleteCall ns] |}.
Proof.
  unfold DeleteNamespace, wrap.
  pose proof (request_world (NamespaceDeleteCall ns) w) as H.
  destruct (request E (NamespaceDeleteCall ns) w) as [[a | e] w']; exact H.
Qed.

End Steps.

(** ** Apply: which documents reach the cluster *)

Section Applier.

Context (E : Env).

Lemma parseYAMLDocuments_loop_Ok reads acc objects :
  parseYAMLDocuments_loop E reads acc = Ok objects ->
  objects = (acc ++ List.filter has_kind (omap (document E) reads))%list.
Proof.
  revert acc. induction reads as [|[doc | err] reads IH]; intros acc; simpl.
  - intros [= <-]. now rewrite app_nil_r.
  - destruct (_ || _); [apply IH|].
    destruct (yaml_ToJSON E _) as [jsonData | err]; [|discriminate].
    destruct (UnmarshalJSON E jsonData) as [obj | err]; [|discriminate].
    simpl. unfold has_kind at 1.
    destruct (String.eqb (GetKind obj) ""); simpl; [apply IH|].
    intros H. apply IH in H. now rewrite <- app_assoc in H.
  - discriminate.
Qed.

Lemma parseYAMLDocuments_Ok data objects :
  parseYAMLDocuments E data = Ok objects ->
  objects = List.filter has_kind (documents E data).
Proof. apply parseYAMLDocuments_loop_Ok. Qed.

(** One round of the loop issues the discovery lookup and at most one
    patch, which is the apply of the document; it issues that patch
    whenever it succeeds. *)
Lemma Apply_one_calls obj w :
  exists new,
    calls (Apply_one E obj w).2 = (calls w ++ new)%list /\
    tenants (Apply_one E obj w).2 = tenants w /\
    ((List.filter is_patch new = [] /\ exists e, (Apply_one E obj w).1 = Err e) \/
     (exists c, List.filter is_patch new = [c] /\ submits E c obj)).
Proof.
  unfold Apply_one, mapper_RESTMapping, bind, wrap, lift, discover, submits. simpl.
  destruct (RESTMapping E _ _ _) as [[resource scope] | e] eqn:Hmap; simpl.
  - destruct (MarshalJSON E obj) as [data | e] eqn:Hdata; simpl.
    + pose proof (request_world E
        (PatchCall resource
           (match scope with ScopeNamespace => Some (GetNamespace obj) | ScopeRoot => None end)
           (GetName obj) data "picoclaw-manager")
        {| tenants := tenants w;
           calls := calls w ++ [RESTMappingCall (GetGroup obj) (GetKind obj) (GetVersion obj)] |})
        as Hw.
      destruct (request E _ _) as [[[] | e] w'] eqn:Hreq; simpl in *; subst w'; simpl;
        eexists; (split; [rewrite <- app_assoc; reflexivity|]); (split; [reflexivity|]);
        right; eexists; (split; [reflexivity|]); exists resource, scope, data; auto.
    + eexists. split; [reflexivity|]. split; [reflexivity|]. left. eauto.
  - eexists. split; [reflexivity|]. split; [reflexivity|]. left. eauto.
Qed.

(** The loop of [Apply] submits the documents in order and stops at the
    first failure: what reached the cluster is a prefix of the slice,
    and all of it when the loop returns nil. *)
Lemma Apply_loop_calls objects w :
  exists new submitted,
    calls (Apply_loop E objects w).2 = (calls w ++ new)%list /\
    tenants (Apply_loop E objects w).2 = tenants w /\
    submitted `prefix_of` objects /\
    Forall2 (submits E) (List.filter is_patch new) submitted /\
    ((Apply_loop E objects w).1 = Ok tt -> submitted = objects).
Proof.
  revert w. induction objects as [|obj objects IH]; intros w.
  - exists [], []. simpl. rewrite app_nil_r. splits; auto.
  - simpl. unfold bind.
    destruct (Apply_one_calls obj w) as (new1 & Hc1 & Ht1 & Hp1).
    destruct (Apply_one E obj w) as [[[] | e] w1]; simpl in *.
    + destruct Hp1 as [(_ & e & He) | (c & Hf & Hs)]; [discriminate|].
      destruct (IH w1) as (new2 & sub2 & Hc2 & Ht2 & Hpre & HF & Hok).
      exists (new1 ++ new2)%list, (obj :: sub2).
      rewrite Hc2, Hc1, Ht2, Ht1, <- app_assoc, List.filter_app, Hf.
      splits; auto.
      * now apply prefix_cons.
      * simpl. now constructor.
      * intros H. now rewrite (Hok H).
    + destruct Hp1 as [(Hf & _) | (c & Hf & Hs)].
      * exists new1, []. rewrite Hf.
        splits; auto using prefix_nil; try discriminate.
      * exists new1, [obj]. rewrite Hf. splits; auto; try discriminate.
        exists objects. reflexivity.
Qed.

Lemma Apply_calls manifests w :
  exists new submitted,
    calls (Apply E manifests w).2 = (calls w ++ new)%list /\
    tenants (Apply E manifests w).2 = tenants w /\
    submitted `prefix_of` List.filter has_kind (documents E manifests) /\
    Forall2 (submits E) (List.filter is_patch new) submitted /\
    ((Apply E manifests w).1 = Ok tt ->
     submitted = List.filter has_kind (documents E manifests)).
Proof.
  unfold Apply, bind, wrap, lift, buildMapper.
  destruct (parseYAMLDocuments E manifests) as [objects | e] eqn:Hparse; simpl.
  - apply parseYAMLDocuments_Ok in Hparse. subst objects.
    destruct (NewDiscoveryClientForConfig E); simpl.
    + exists [], []. rewrite app_nil_r.
      splits; auto using prefix_nil; try discriminate.
    + apply Apply_loop_calls.
  - exists [], []. rewrite app_nil_r.
    splits; auto using prefix_nil; try discriminate.
Qed.

Lemma Apply_tenants manifests w : tenants (Apply E manifests w).2 = tenants w.
Proof. destruct (Apply_calls manifests w) as (? & ? & _ & H & _). exact H. Qed.

End Applier.

(** ** Create, stage by stage *)

Section CreateStages.

Context (E : Env) (image : string).

Lemma Create_invalid req w e :
  validateTenantID (c_TenantID req) = Some e ->
  Create E image req w = (Err e, w).
Proof. intros H. unfold Create. now rewrite H. Qed.

Lemma Create_no_display_name req w :
  validateTenantID (c_TenantID req) = None ->
  c_DisplayName req = "" ->
  Create E image req w = (Err (Errorf "display_name is required" []), w).
Proof. intros H1 H2. unfold Create. now rewrite H1, H2. Qed.

Lemma Create_exists req w :
  validateTenantID (c_TenantID req) = None ->
  c_DisplayName req <> "" ->
  db_error E (SelectTenant (c_TenantID req)) = None ->
  is_Some (tenants w !! c_TenantID req) ->
  Create E image req w =
  (Err (Errorf "tenant %q already exists" [c_TenantID req]), w).
Proof.
  intros H1 H2 H3 [r Hr]. unfold Create. rewrite H1.
  destruct (String.eqb_spec (c_DisplayName req) ""); [contradiction|].
  unfold bind, wrap. rewrite (Store_Get_answer E _ w H3), Hr. reflexivity.
Qed.

(** With a record of that ID in the table, [Create] returns an error
    before it reaches the renderer, the cluster or an [INSERT]. *)
Lemma Create_exists_unchanged req w :
  is_Some (tenants w !! c_TenantID req) ->
  exists e, Create E image req w = (Err e, w).
Proof.
  intros [r Hr]. unfold Create.
  destruct (validateTenantID _); [eauto|].
  destruct (String.eqb _ ""); [eauto|].
  unfold bind, wrap, Store_Get.
  destruct (db_error E _); [eauto|].
  rewrite Hr. simpl. eauto.
Qed.

(** What is left of [Create] once the manifests have been applied. *)
Lemma Create_applied req w cfg manifests w1 :
  validateTenantID (c_TenantID req) = None ->
  c_DisplayName req <> "" ->
  db_error E (SelectTenant (c_TenantID req)) = None ->
  tenants w !! c_TenantID req = None ->
  buildConfigJSON E (c_Providers req) (c_Agents req) (c_Channels req) = Ok cfg ->
  RenderAll E (ToVars (Create_tenant E req cfg) image) = Ok manifests ->
  Apply E manifests w = (Ok tt, w1) ->
  Create E image req w =
  match Store_Create E (Create_tenant E req cfg) w1 with
  | (Err err, w2) =>
      (Err (Wrapf "store tenant: %w" [] err),
       (DeleteNamespace E (Namespace (Create_tenant E req cfg)) w2).2)
  | (Ok _, w2) =>
      ((Ok (Store_Update E (set_Status "active" (Create_tenant E req cfg)) w2).1.1),
       (Store_Update E (set_Status "active" (Create_tenant E req cfg)) w2).2)
  end.
Proof.
  intros H1 H2 H3 H4 H5 H6 H7. unfold Create. rewrite H1.
  destruct (String.eqb_spec (c_DisplayName req) ""); [contradiction|].
  unfold bind, wrap, try, lift, fail.
  rewrite (Store_Get_answer E _ w H3), H4. simpl.
  rewrite H5, H6, H7.
  destruct (Store_Create E _ w1) as [[[] | err] w2].
  - destruct (Store_Update E _ w2) as [[t' o] w3]. reflexivity.
  - destruct (DeleteNamespace E _ w2) as [r w3]. reflexivity.
Qed.

(** A successful [Create] leaves a record of that ID in the table. *)
Lemma Create_Ok_stored req w t w' :
  Create E image req w = (Ok t, w') ->
  is_Some (tenants w' !! c_TenantID req).
Proof.
  unfold Create.
  destruct (validateTenantID _); [discriminate|].
  destruct (String.eqb _ ""); [discriminate|].
  unfold bind, wrap, try, lift, fail.
  destruct (Store_Get E _ w) as [[[x|] | e] w0]; try discriminate.
  destruct (buildConfigJSON E _ _ _) as [cfg | e]; [|discriminate].
  destruct (RenderAll E _) as [manifests | e]; [|discriminate].
  destruct (Apply E manifests w0) as [[[] | e] w1]; [|discriminate].
  destruct (Store_Create E _ w1) as [[[] | e] w2] eqn:Hc.
  - apply Store_Create_Ok in Hc as [_ ->].
    pose proof (Store_Update_is_Some E
      (set_Status "active" (Create_tenant E req cfg))
      {| tenants := <[ID (Create_tenant E req cfg) := row_of_tenant (Create_tenant E req cfg)]>
                      (tenants w1);
         calls := calls w1 |} (c_TenantID req)) as Hs.
    destruct (Store_Update E _ _) as [[t' o] w3].
    intros [= <- <-]. apply Hs. simpl. rewrite lookup_insert_eq. eauto.
  - destruct (DeleteNamespace E _ w2) as [r w3]. discriminate.
Qed.

(** A successful [Create] was given a request that passes validation. *)
Lemma Create_Ok_valid req w t w' :
  Create E image req w = (Ok t, w') ->
  validateTenantID (c_TenantID req) = None /\ c_DisplayName req <> "".
Proof.
  unfold Create.
  destruct (validateTenantID _); [discriminate|].
  destruct (String.eqb_spec (c_DisplayName req) ""); [discriminate|].
  auto.
Qed.

End CreateStages.

(** ** The namespace of a tenant *)

Lemma namespace_length (id : string) :
  String.length ("picoclaw-tenant-" ++ id) = 16 + String.length id.
Proof. reflexivity. Qed.

(** X2. For an accepted ID of at most 47 characters, the namespace
    derived from it matches [dnsNameRegex]: the bound that keeps the
    namespace a DNS label is 47, which is [63 - len("picoclaw-tenant-")]. *)
Lemma namespace_dns_label_47 (id : string) :
  validateTenantID id = None ->
  String.length id <= 47 ->
  MatchString dnsNameRegex ("picoclaw-tenant-" ++ id) = true.
Proof.
  intros Hv Hlen. apply validateTenantID_None in Hv as [_ Hm].
  apply RegexpFacts.MatchString_dnsNameRegex in Hm.
  apply RegexpFacts.MatchString_dnsNameRegex.
  rewrite <- length_list_ascii_of_string in Hlen.
  rewrite list_ascii_of_string_app.
  set (prefix := list_ascii_of_string "icoclaw-tenant-").
  change (list_ascii_of_string "picoclaw-tenant-") with ("p"%char :: prefix).
  destruct Hm as [(c & Hid & Hc) | (c & mid & d & Hid & Hc & Hmid & Hall & Hd)];
    rewrite Hid in *; right.
  - exists "p"%char, prefix, c. splits; auto. simpl. lia.
  - exists "p"%char, (prefix ++ c :: mid)%list, d. splits; auto.
    + simpl in Hlen. rewrite length_app in *. simpl in *. lia.
    + rewrite forallb_app. simpl.
      now rewrite Hall, (RegexpFacts.lower_alnum_hyphen_of_alnum c Hc).
Qed.

(** C10. An ID of 48 characters passes [validateTenantID], whose bound
    is 53, and the namespace derived from it has 64 characters: it is
    not a DNS label, which [dnsNameRegex] itself confirms. *)
Theorem C10_namespace_exceeds_dns_label :
  let id := "aaaaaaaaaaaaaaaaaaaaaaaaaaaaaaaaaaaaaaaaaaaaaaaa" in
  let req := {| c_TenantID := id; c_DisplayName := "A"; c_Providers := None;
                c_Agents := None; c_Channels := None; c_Resources := None |} in
  String.length id = 48 /\
  validateTenantID id = None /\
  String.length (Namespace (Create_tenant Demo.env req "{}")) = 64 /\
  MatchString dnsNameRegex (Namespace (Create_tenant Demo.env req "{}")) = false /\
  exists t, (Create Demo.env Demo.image req Demo.empty_world).1 = Ok t /\
            String.length (Namespace t) = 64.
Proof.
  cbv zeta. splits; try (vm_compute; reflexivity).
  eexists. split; vm_compute; reflexivity.
Qed.

(** ** Create *)

(** C1. For the request [{tenant_id: "acme", display_name: "ACME",
    resources: null}] with no record for ["acme"], when the store, the
    renderer and the cluster answer, [Create] succeeds and returns a
    tenant with namespace ["picoclaw-tenant-acme"], the five default
    resource limits and status ["active"]. *)
Theorem C1_create_acme (E : Env) (image : string) (req : CreateRequest) (w : World)
    (cfg manifests : string) :
  c_TenantID req = "acme" ->
  c_DisplayName req = "ACME" ->
  c_Resources req = None ->
  tenants w !! "acme" = None ->
  namespace_taken "picoclaw-tenant-acme" (tenants w) = false ->
  db_error E (SelectTenant "acme") = None ->
  buildConfigJSON E (c_Providers req) (c_Agents req) (c_Channels req) = Ok cfg ->
  RenderAll E (ToVars (Create_tenant E req cfg) image) = Ok manifests ->
  (Apply E manifests w).1 = Ok tt ->
  db_error E (InsertTenant (Create_tenant E req cfg)) = None ->
  exists t w',
    Create E image req w = (Ok t, w') /\
    ID t = "acme" /\
    Namespace t = "picoclaw-tenant-acme" /\
    TResources t = {| AgentCPU := "500m"; AgentMemory := "1Gi"; GatewayCPU := "250m";
                      GatewayMemory := "512Mi"; WorkspaceSize := "500Mi" |} /\
    Status t = "active" /\
    is_Some (tenants w' !! "acme").
Proof.
  intros Hid Hname Hres Hfree Hns Hget Hcfg Hrender Happly Hinsert.
  pose proof (Apply_tenants E manifests w) as Htenants.
  destruct (Apply E manifests w) as [r w1] eqn:Hap. simpl in Happly, Htenants. subst r.
  assert (Hcreate : Create E image req w =
                    (Ok (Store_Update E (set_Status "active" (Create_tenant E req cfg))
                           {| tenants := <["acme" := row_of_tenant (Create_tenant E req cfg)]>
                                           (tenants w1);
                              calls := calls w1 |}).1.1,
                     (Store_Update E (set_Status "active" (Create_tenant E req cfg))
                        {| tenants := <["acme" := row_of_tenant (Create_tenant E req cfg)]>
                                        (tenants w1);
                           calls := calls w1 |}).2)).
  { rewrite (Create_applied E image req w cfg manifests w1); auto.
    - unfold Store_Create. rewrite Hinsert. simpl. rewrite Hid, Htenants, Hfree.
      rewrite bool_decide_eq_false_2 by (intros [? ?]; discriminate).
      change ("picoclaw-tenant-" ++ "acme") with "picoclaw-tenant-acme".
      rewrite Hns. reflexivity.
    - now rewrite Hid.
    - rewrite Hname. discriminate.
    - now rewrite Hid.
    - now rewrite Hid. }
  eexists _, _. split; [exact Hcreate|].
  rewrite Store_Update_tenant. simpl. rewrite Hid, Hres. splits; auto.
  apply Store_Update_is_Some. simpl. rewrite lookup_insert_eq. eauto.
Qed.

Lemma C1_create_acme_witness :
  exists t w',
    Create Demo.env Demo.image Demo.acme Demo.empty_world = (Ok t, w') /\
    ID t = "acme" /\
    Namespace t = "picoclaw-tenant-acme" /\
    TResources t = {| AgentCPU := "500m"; AgentMemory := "1Gi"; GatewayCPU := "250m";
                      GatewayMemory := "512Mi"; WorkspaceSize := "500Mi" |} /\
    Status t = "active" /\
    is_Some (tenants w' !! "acme").
Proof.
  apply (C1_create_acme Demo.env Demo.image Demo.acme Demo.empty_world Demo.config
           Demo.acme_manifests);
    vm_compute; reflexivity.
Defined.

(** C4. For a tenant ID that violates the grammar (a character that is
    not a lowercase letter, a digit or a hyphen, such as an uppercase
    letter or an underscore; a hyphen in front or at the end) or is longer
    than 53 characters, [Create] returns a validation error and leaves the
    cluster and the store as they were: no request is issued and no row
    written. *)
Theorem C4_create_rejects_invalid_id (E : Env) (image : string) (req : CreateRequest)
    (w : World) :
  violates_grammar (c_TenantID req) \/ 53 < String.length (c_TenantID req) ->
  exists e, Create E image req w = (Err e, w) /\ ValidationError e.
Proof.
  intros H. apply validateTenantID_rejects in H as (e & Hv & He).
  exists e. split; [|exact He]. now apply Create_invalid.
Qed.

Lemma C4_create_rejects_invalid_id_witness :
  exists e,
    Create Demo.env Demo.image
      {| c_TenantID := "ACME"; c_DisplayName := "ACME"; c_Providers := None;
         c_Agents := None; c_Channels := None; c_Resources := None |}
      Demo.acme_world = (Err e, Demo.acme_world) /\
    ValidationError e.
Proof.
  apply (C4_create_rejects_invalid_id Demo.env Demo.image
           {| c_TenantID := "ACME"; c_DisplayName := "ACME"; c_Providers := None;
              c_Agents := None; c_Channels := None; c_Resources := None |}
           Demo.acme_world).
  left. left. exists "", "A"%char, "CME". split; reflexivity.
Defined.

(** C5, as stated, fails: with a record for ["acme"] in the store, left
    there by a first [Create], a second [Create] for ["acme"] whose
    display name is empty returns the validation error of step 2, not a
    conflict error. *)
Lemma C5_create_existing_counterexample :
  let again := {| c_TenantID := "acme"; c_DisplayName := ""; c_Providers := None;
                  c_Agents := None; c_Channels := None; c_Resources := None |} in
  (exists t, Create Demo.env Demo.image Demo.acme Demo.empty_world = (Ok t, Demo.acme_world)) /\
  is_Some (tenants Demo.acme_world !! "acme") /\
  Create Demo.env Demo.image again Demo.acme_world =
    (Err (Errorf "display_name is required" []), Demo.acme_world) /\
  ~ ConflictError (Errorf "display_name is required" []).
Proof.
  cbv zeta. splits.
  - eexists. vm_compute. reflexivity.
  - eexists. vm_compute. reflexivity.
  - apply Create_no_display_name; reflexivity.
  - intros [id H]. discriminate.
Qed.

(** C5, amended. If a record with the requested tenant ID exists in the
    store, [Create] returns an error and leaves the cluster and the store
    as they were (no apply is attempted); when the request passes
    validation (tenant ID and display name) and the lookup is answered,
    that error is the conflict error; in particular this is what a
    request that [Create] has just served gets when it is sent again. *)
Theorem C5_create_existing (E : Env) (image : string) (req : CreateRequest) (w : World) :
  is_Some (tenants w !! c_TenantID req) ->
  (exists e, Create E image req w = (Err e, w)) /\
  (validateTenantID (c_TenantID req) = None ->
   c_DisplayName req <> "" ->
   db_error E (SelectTenant (c_TenantID req)) = None ->
   Create E image req w = (Err (Errorf "tenant %q already exists" [c_TenantID req]), w) /\
   ConflictError (Errorf "tenant %q already exists" [c_TenantID req])) /\
  (forall (E0 : Env) (w0 : World) (t0 : Tenant),
     Create E0 image req w0 = (Ok t0, w) ->
     db_error E (SelectTenant (c_TenantID req)) = None ->
     Create E image req w = (Err (Errorf "tenant %q already exists" [c_TenantID req]), w)).
Proof.
  intros H. splits.
  - now apply Create_exists_unchanged.
  - intros H1 H2 H3. split; [now apply Create_exists|].
    exists (c_TenantID req). reflexivity.
  - intros E0 w0 t0 Hfirst Hdb.
    apply Create_Ok_valid in Hfirst as [H1 H2]. now apply Create_exists.
Qed.

Lemma C5_create_existing_witness :
  (Create Demo.env Demo.image Demo.acme Demo.acme_world =
     (Err (Errorf "tenant %q already exists" ["acme"]), Demo.acme_world) /\
   ConflictError (Errorf "tenant %q already exists" ["acme"])) /\
  calls (Create Demo.env Demo.image Demo.acme Demo.acme_world).2 = calls Demo.acme_world.
Proof.
  assert (Hfirst : Create Demo.env Demo.image Demo.acme Demo.empty_world =
                   (Ok (tenant_of_row "acme" Demo.acme_row), Demo.acme_world))
    by (vm_compute; reflexivity).
  destruct (C5_create_existing Demo.env Demo.image Demo.acme Demo.acme_world)
    as (_ & Hconflict & Hagain).
  - exact (Create_Ok_stored _ _ _ _ _ _ Hfirst).
  - split.
    + apply Hconflict; [reflexivity | discriminate | reflexivity].
    + rewrite (Hagain Demo.env Demo.empty_world _ Hfirst eq_refl). reflexivity.
Defined.

(** C6. When the manifests have been applied and the store then refuses
    the tenant record, [Create] issues the deletion of the namespace it
    has just created and returns the error of the store, wrapped; what the
    cluster answers to the deletion appears nowhere in the result. *)
Theorem C6_create_store_failure (E : Env) (image : string) (req : CreateRequest)
    (w w1 w2 : World) (cfg manifests : string) (err : error) :
  validateTenantID (c_TenantID req) = None ->
  c_DisplayName req <> "" ->
  db_error E (SelectTenant (c_TenantID req)) = None ->
  tenants w !! c_TenantID req = None ->
  buildConfigJSON E (c_Providers req) (c_Agents req) (c_Channels req) = Ok cfg ->
  RenderAll E (ToVars (Create_tenant E req cfg) image) = Ok manifests ->
  Apply E manifests w = (Ok tt, w1) ->
  Store_Create E (Create_tenant E req cfg) w1 = (Err err, w2) ->
  Create E image req w =
    (Err (Wrapf "store tenant: %w" [] err),
     {| tenants := tenants w;
        calls := calls w1 ++ [NamespaceDeleteCall ("picoclaw-tenant-" ++ c_TenantID req)] |}) /\
  PersistenceError (Wrapf "store tenant: %w" [] err).
Proof.
  intros H1 H2 H3 H4 H5 H6 H7 H8.
  rewrite (Create_applied E image req w cfg manifests w1); auto.
  rewrite H8, DeleteNamespace_world.
  apply Store_Create_Err in H8 as [-> [cause ->]].
  pose proof (Apply_tenants E manifests w) as Ht. rewrite H7 in Ht. simpl in Ht.
  rewrite Ht. split; [reflexivity|]. eexists. right. left. reflexivity.
Qed.

Lemma C6_create_store_failure_witness :
  let refused := Wrapf "store tenant: %w" []
                   (Wrapf "insert tenant: %w" [] (External "connection refused")) in
  let cleaned := {| tenants := ∅;
                    calls := calls Demo.applied_world ++
                             [NamespaceDeleteCall "picoclaw-tenant-acme"] |} in
  Create (Demo.failing_insert None) Demo.image Demo.acme Demo.empty_world =
    (Err refused, cleaned) /\
  Create (Demo.failing_insert (Some (External "namespaces not found")))
    Demo.image Demo.acme Demo.empty_world =
    (Err refused, cleaned).
Proof.
  cbv zeta. split.
  - apply (C6_create_store_failure (Demo.failing_insert None) Demo.image Demo.acme
             Demo.empty_world Demo.applied_world Demo.applied_world Demo.config
             Demo.acme_manifests (Wrapf "insert tenant: %w" [] (External "connection refused")));
      try discriminate; vm_compute; reflexivity.
  - apply (C6_create_store_failure
             (Demo.failing_insert (Some (External "namespaces not found")))
             Demo.image Demo.acme
             Demo.empty_world Demo.applied_world Demo.applied_world Demo.config
             Demo.acme_manifests (Wrapf "insert tenant: %w" [] (External "connection refused")));
      try discriminate; vm_compute; reflexivity.
Defined.

(** ** Delete *)

Lemma Store_List_elem (E : Env) (w : World) (id : string) (r : Row) :
  db_error E SelectTenants = None ->
  tenants w !! id = Some r ->
  exists l, List E w = (Ok l, w) /\ tenant_of_row id r ∈ l.
Proof.
  intros Hdb Hr. unfold List, Store_List. rewrite Hdb.
  eexists. split; [reflexivity|].
  rewrite merge_sort_Permutation.
  apply list_elem_of_fmap. exists (id, r). split; [reflexivity|].
  now apply elem_of_map_to_list.
Qed.

Lemma Get_answer (E : Env) (w : World) (id : string) :
  db_error E (SelectTenant id) = None ->
  Get E id w = (Ok (tenant_of_row id <$> tenants w !! id), w).
Proof.
  intros Hdb. unfold Get, bind. rewrite (Store_Get_answer E id w Hdb).
  now destruct (tenants w !! id).
Qed.

(** C7. [Delete] on an unknown ID returns an error and issues no request
    to the cluster and no deletion to the store, and the error is the
    not-found error when the lookup is answered; for an existing tenant
    whose namespace the cluster refuses to delete, [Delete] returns that
    error and the table is as before, so [Get] and [List] still show the
    tenant. *)
Theorem C7_delete_failures (E : Env) (id : string) (w : World) :
  (tenants w !! id = None ->
   (exists e, Delete E id w = (Err e, w)) /\
   (db_error E (SelectTenant id) = None ->
    Delete E id w = (Err (Errorf "tenant %q not found" [id]), w) /\
    NotFoundError (Errorf "tenant %q not found" [id]))) /\
  (forall (r : Row) (err : error),
     tenants w !! id = Some r ->
     db_error E (SelectTenant id) = None ->
     api_error E (calls w) (NamespaceDeleteCall (namespace r)) = Some err ->
     exists w',
       Delete E id w =
         (Err (Wrapf "delete namespace: %w" []
                 (Wrapf "delete namespace %s: %w" [namespace r] err)), w') /\
       RemoteError (Wrapf "delete namespace: %w" []
                      (Wrapf "delete namespace %s: %w" [namespace r] err)) /\
       tenants w' = tenants w /\
       calls w' = (calls w ++ [NamespaceDeleteCall (namespace r)])%list /\
       (forall E', db_error E' (SelectTenant id) = None ->
                   Get E' id w' = (Ok (Some (tenant_of_row id r)), w')) /\
       (forall E', db_error E' SelectTenants = None ->
                   exists l, List E' w' = (Ok l, w') /\ tenant_of_row id r ∈ l)).
Proof.
  split.
  - intros Hr. split.
    + unfold Delete, bind, Store_Get.
      destruct (db_error E (SelectTenant id)); [eauto|]. rewrite Hr. simpl. eauto.
    + intros Hdb. split; [|exists id; reflexivity].
      unfold Delete, bind. rewrite (Store_Get_answer E id w Hdb), Hr. reflexivity.
  - intros r err Hr Hdb Hapi.
    exists {| tenants := tenants w; calls := calls w ++ [NamespaceDeleteCall (namespace r)] |}.
    splits; auto.
    + unfold Delete, bind. rewrite (Store_Get_answer E id w Hdb), Hr. simpl.
      unfold wrap, DeleteNamespace, wrap, request. rewrite Hapi. reflexivity.
    + eexists. right. reflexivity.
    + intros E' Hdb'. rewrite (Get_answer E' _ id Hdb'). simpl. now rewrite Hr.
    + intros E' Hdb'. now apply Store_List_elem.
Qed.

Lemma C7_delete_failures_witness :
  Delete Demo.env "ghost" Demo.acme_world =
    (Err (Errorf "tenant %q not found" ["ghost"]), Demo.acme_world) /\
  exists w',
    Delete (Demo.failing_insert (Some (External "forbidden"))) "acme" Demo.acme_world =
      (Err (Wrapf "delete namespace: %w" []
              (Wrapf "delete namespace %s: %w" ["picoclaw-tenant-acme"]
                 (External "forbidden"))), w') /\
    tenants w' = tenants Demo.acme_world /\
    Get Demo.env "acme" w' = (Ok (Some (tenant_of_row "acme" Demo.acme_row)), w').
Proof.
  split.
  - apply (C7_delete_failures Demo.env "ghost" Demo.acme_world); vm_compute; reflexivity.
  - destruct (C7_delete_failures (Demo.failing_insert (Some (External "forbidden")))
                "acme" Demo.acme_world) as [_ H].
    destruct (H Demo.acme_row (External "forbidden")) as (w' & H1 & _ & H2 & _ & H3 & _);
      try (vm_compute; reflexivity).
    exists w'. split; [exact H1|]. split; [exact H2|]. apply H3. reflexivity.
Defined.

(** ** Apply *)




(** With a decoder that never returns an object without a kind, as the
    one of [unstructured.Unstructured], which refuses such an object,
    the test on the kind in [parseYAMLDocuments] drops nothing. *)
Lemma kind_test_drops_nothing (E : Env) (manifests : string) :
  (forall data obj, UnmarshalJSON E data = Ok obj -> GetKind obj <> "") ->
  List.filter has_kind (documents E manifests) = documents E manifests.
Proof.
  intros Hdec. unfold documents.
  induction (YAMLReader_Read E manifests) as [|chunk chunks IH]; [reflexivity|].
  change (omap (document E) (chunk :: chunks))
    with (match document E chunk with
          | Some obj => obj :: omap (document E) chunks
          | None => omap (document E) chunks
          end).
  destruct (document E chunk) as [obj|] eqn:Hdoc; [|exact IH].
  assert (Hkind : has_kind obj = true).
  { unfold document in Hdoc. destruct chunk as [doc|]; [|discriminate].
    destruct (_ || _); [discriminate|].
    destruct (yaml_ToJSON E _) as [jsonData|]; [|discriminate].
    destruct (UnmarshalJSON E jsonData) as [obj'|] eqn:Hun; [|discriminate].
    injection Hdoc as <-. apply Hdec in Hun. unfold has_kind.
    destruct (String.eqb_spec (GetKind obj') ""); [contradiction | reflexivity]. }
  change (List.filter has_kind (obj :: omap (document E) chunks))
    with (if has_kind obj then obj :: List.filter has_kind (omap (document E) chunks)
          else List.filter has_kind (omap (document E) chunks)).
  rewrite Hkind, IH. reflexivity.
Qed.

(** With such a decoder a document without a kind is not skipped: it
    fails the parse, and [Apply] returns the error with nothing sent to
    the cluster. *)
Lemma Apply_kindless_document :
  Apply Demo.env Demo.stray_stream Demo.empty_world =
  (Err (Wrapf "parse manifests: %w" []
          (Wrapf "unmarshal JSON: %w" [] (External "Object 'Kind' is missing"))),
   Demo.empty_world).
Proof. vm_compute. reflexivity. Qed.

(** ** Update *)

Section UpdateStages.

Context (E : Env) (image : string).

Lemma set_ConfigJSON_same t : set_ConfigJSON (ConfigJSON t) t = t.
Proof. now destruct t. Qed.

Lemma Update_config_world req t w : (Update_config E req t w).2 = w.
Proof.
  unfold Update_config, bind, wrap, lift, ret, fail.
  destruct (_ || _); [|reflexivity].
  destruct (json_Unmarshal E _) as [[existing|] | e]; simpl; try reflexivity.
  now destruct (json_MarshalIndent E _).
Qed.

(** The configuration block either leaves the document alone (no
    section in the request) or decodes it, assigns the supplied
    sections and encodes the result. *)
Lemma Update_config_Ok req t w t1 w1 :
  Update_config E req t w = (Ok t1, w1) ->
  (u_Providers req = None /\ u_Agents req = None /\ u_Channels req = None /\ t1 = t) \/
  (exists existing cfg,
     json_Unmarshal E (ConfigJSON t) = Ok (Some existing) /\
     json_MarshalIndent E
       (assign "channels" (u_Channels req)
          (assign "agents" (u_Agents req)
             (assign "providers" (u_Providers req) existing))) = Ok cfg /\
     t1 = set_ConfigJSON cfg t).
Proof.
  unfold Update_config, bind, wrap, lift, ret, fail.
  destruct (u_Providers req) as [p|], (u_Agents req) as [a|], (u_Channels req) as [c|];
    simpl;
    try (destruct (json_Unmarshal E _) as [[existing|] | e]; simpl; try discriminate;
         destruct (json_MarshalIndent E _) as [cfg | e] eqn:Hm; simpl; try discriminate;
         intros [= <- <-]; right; exists existing, cfg; auto).
  intros [= <- <-]. left. auto.
Qed.

Lemma Update_config_ID req t w t1 w1 :
  Update_config E req t w = (Ok t1, w1) -> ID t1 = ID t.
Proof.
  intros H. apply Update_config_Ok in H
    as [(_ & _ & _ & ->) | (existing & cfg & _ & _ & ->)]; reflexivity.
Qed.

(** [Update] on an existing tenant either fails and leaves the table
    alone, or returns the tenant it has built and rewrites the row's
    display name, configuration, resources, status and update time. *)
Lemma Update_cases id req w r :
  tenants w !! id = Some r ->
  (exists e, (Update E image id req w).1 = Err e /\
             tenants (Update E image id req w).2 = tenants w) \/
  (exists t1,
     Update_config E req (Update_renamed id req r) w = (Ok t1, w) /\
     (Update E image id req w).1 =
       Ok (set_UpdatedAt (store_Now E) (Update_merged req t1)) /\
     tenants (Update E image id req w).2 =
       <[id := {| display_name := DisplayName (Update_merged req t1);
                  namespace := namespace r;
                  config_json := ConfigJSON (Update_merged req t1);
                  resources := TResources (Update_merged req t1);
                  status := Status (Update_merged req t1);
                  created_at := created_at r;
                  updated_at := store_Now E |}]> (tenants w)).
Proof.
  intros Hr. unfold Update, bind, Store_Get.
  destruct (db_error E (SelectTenant id)); [left; eauto|].
  rewrite Hr. simpl. fold (Update_renamed id req r).
  pose proof (Update_config_world req (Update_renamed id req r) w) as Hw.
  destruct (Update_config E req (Update_renamed id req r) w) as [[t1 | e] w0] eqn:Hcfg;
    simpl in Hw; subst w0; [|left; eauto].
  fold (Update_merged req t1).
  assert (Hid : ID (Update_merged req t1) = id).
  { unfold Update_merged. destruct (u_Resources req); simpl;
      rewrite (Update_config_ID _ _ _ _ _ Hcfg); unfold Update_renamed;
      destruct (negb _); reflexivity. }
  unfold wrap, lift.
  destruct (RenderAll E _) as [manifests | e]; [|left; eauto].
  pose proof (Apply_tenants E manifests w) as Ht.
  destruct (Apply E manifests w) as [[[] | e] w1]; simpl in Ht; [|left; eauto].
  unfold Store_Update.
  destruct (db_error E (UpdateTenant _)); [left; eauto|].
  change (ID (set_UpdatedAt (store_Now E) (Update_merged req t1)))
    with (ID (Update_merged req t1)).
  rewrite Hid, Ht, Hr. simpl.
  right. exists t1. auto.
Qed.

End UpdateStages.

(** C9. An [Update] that supplies only a display name (no providers,
    agents, channels or resources) returns, when it succeeds, a tenant
    whose configuration document and five resource limits are those of the
    stored record; and whether it succeeds or fails, the stored record
    keeps them. *)
Theorem C9_update_display_name_only (E : Env) (image : string) (id : string)
    (req : UpdateRequest) (w : World) (r : Row) :
  tenants w !! id = Some r ->
  u_Providers req = None ->
  u_Agents req = None ->
  u_Channels req = None ->
  u_Resources req = None ->
  (forall t, (Update E image id req w).1 = Ok t ->
             ConfigJSON t = config_json r /\ TResources t = resources r) /\
  (exists r', tenants (Update E image id req w).2 !! id = Some r' /\
              config_json r' = config_json r /\ resources r' = resources r).
Proof.
  intros Hr Hp Ha Hc Hres.
  assert (Hsame : forall t1, Update_config E req (Update_renamed id req r) w = (Ok t1, w) ->
                             ConfigJSON (Update_merged req t1) = config_json r /\
                             TResources (Update_merged req t1) = resources r).
  { intros t1. unfold Update_merged, Update_config. rewrite Hres, Hp, Ha, Hc. simpl.
    intros [= <-]. unfold Update_renamed. destruct (negb _); auto. }
  destruct (Update_cases E image id req w r Hr)
    as [(e & He & Ht) | (t1 & Hcfg & Ht & Hw)].
  - split.
    + intros t H. rewrite He in H. discriminate.
    + exists r. rewrite Ht. auto.
  - destruct (Hsame t1 Hcfg) as [H1 H2]. split.
    + intros t H. rewrite Ht in H. injection H as <-. auto.
    + eexists. rewrite Hw, lookup_insert_eq. split; [reflexivity|]. auto.
Qed.

Lemma C9_update_display_name_only_witness :
  let req := {| u_DisplayName := "Acme Corp"; u_Providers := None; u_Agents := None;
                u_Channels := None; u_Resources := None |} in
  (exists t, (Update Demo.env Demo.image "acme" req Demo.acme_world).1 = Ok t /\
             DisplayName t = "Acme Corp" /\
             ConfigJSON t = "{gateway}" /\ TResources t = DefaultResources) /\
  (exists r', tenants (Update Demo.env Demo.image "acme" req Demo.acme_world).2 !! "acme"
              = Some r' /\
              config_json r' = "{gateway}" /\ resources r' = DefaultResources).
Proof.
  cbv zeta.
  destruct (C9_update_display_name_only Demo.env Demo.image "acme"
              {| u_DisplayName := "Acme Corp"; u_Providers := None; u_Agents := None;
                 u_Channels := None; u_Resources := None |}
              Demo.acme_world Demo.acme_row) as [H1 H2]; try (vm_compute; reflexivity).
  split; [|exact H2].
  eexists. split; [vm_compute; reflexivity|]. split; [reflexivity|].
  apply H1. vm_compute. reflexivity.
Defined.

(** C3. When an [Update] that supplies providers succeeds on an existing
    tenant, the configuration of the result is the encoding of a document
    in which the top-level key [providers] holds exactly the supplied
    value, whatever it held before, and in which [agents], not supplied,
    holds what the stored document held (as does every key other than
    [providers] and [channels]); the stored record carries that
    configuration. *)
Theorem C3_update_replaces_providers (E : Env) (image : string) (id : string)
    (req : UpdateRequest) (w w' : World) (r : Row) (p : object) (t : Tenant) :
  tenants w !! id = Some r ->
  u_Providers req = Some p ->
  u_Agents req = None ->
  Update E image id req w = (Ok t, w') ->
  exists existing doc : object,
    json_Unmarshal E (config_json r) = Ok (Some existing) /\
    json_MarshalIndent E doc = Ok (ConfigJSON t) /\
    doc !! "providers" = Some (VObject p) /\
    doc !! "agents" = existing !! "agents" /\
    (forall key, key <> "providers" -> key <> "channels" -> doc !! key = existing !! key) /\
    exists r', tenants w' !! id = Some r' /\ config_json r' = ConfigJSON t.
Proof.
  intros Hr Hp Ha Hup.
  destruct (Update_cases E image id req w r Hr)
    as [(e & He & _) | (t1 & Hcfg & Ht & Hw)]; rewrite Hup in *; simpl in *;
    [discriminate|].
  injection Ht as ->.
  apply Update_config_Ok in Hcfg
    as [(Hp' & _) | (existing & cfg & Hun & Hmar & ->)]; [congruence|].
  assert (Hold : ConfigJSON (Update_renamed id req r) = config_json r).
  { unfold Update_renamed. now destruct (negb _). }
  assert (Hnew : ConfigJSON (set_UpdatedAt (store_Now E)
                   (Update_merged req (set_ConfigJSON cfg (Update_renamed id req r)))) = cfg).
  { unfold Update_merged. now destruct (u_Resources req). }
  rewrite Hold in Hun. rewrite Hp, Ha in Hmar. simpl in Hmar.
  exists existing, (assign "channels" (u_Channels req) (<["providers" := VObject p]> existing)).
  rewrite Hnew. splits; auto.
  - destruct (u_Channels req); simpl.
    + rewrite lookup_insert_ne by discriminate. apply lookup_insert_eq.
    + apply lookup_insert_eq.
  - destruct (u_Channels req); simpl;
      repeat (rewrite lookup_insert_ne by discriminate); reflexivity.
  - intros key H1 H2. destruct (u_Channels req); simpl;
      repeat (rewrite lookup_insert_ne by congruence); reflexivity.
  - eexists. rewrite Hw, lookup_insert_eq. split; [reflexivity|]. simpl.
    unfold Update_merged. now destruct (u_Resources req).
Qed.

Lemma C3_update_replaces_providers_witness :
  let p : object := {["anthropic" := VObject {["api_key" := VString "k2"]}]} in
  let req := {| u_DisplayName := ""; u_Providers := Some p; u_Agents := None;
                u_Channels := None; u_Resources := None |} in
  exists t doc,
    (Update Demo.env Demo.image "acme" req Demo.acme_world).1 = Ok t /\
    json_MarshalIndent Demo.env doc = Ok (ConfigJSON t) /\
    doc !! "providers" = Some (VObject p) /\
    doc !! "agents" = Demo.stored_config !! "agents".
Proof.
  cbv zeta.
  set (p := {["anthropic" := VObject {["api_key" := VString "k2"]}]} : object).
  set (req := {| u_DisplayName := ""; u_Providers := Some p; u_Agents := None;
                 u_Channels := None; u_Resources := None |}).
  set (t := set_UpdatedAt 101
              (set_ConfigJSON "{gateway,agents,providers}"
                 (tenant_of_row "acme" Demo.acme_row))).
  destruct (C3_update_replaces_providers Demo.env Demo.image "acme" req Demo.acme_world
              (Update Demo.env Demo.image "acme" req Demo.acme_world).2
              Demo.acme_row p t)
    as (existing & doc & Hun & Hmar & Hprov & Hag & _);
    try (vm_compute; reflexivity).
  exists t, doc. injection Hun as <-. splits; auto.
Defined.


(** * Further properties of the code *)

(** ** Tenant IDs *)

(** X1. [validateTenantID] accepts exactly the strings of 1 to 53 characters
    of [[a-z0-9\-]] whose first and last characters are in [[a-z0-9]]. *)
Theorem validateTenantID_accepts_iff (id : string) :
  validateTenantID id = None <->
  (1 <= String.length id <= 53 /\
   forallb lower_alnum_hyphen (list_ascii_of_string id) = true /\
   (exists c, head (list_ascii_of_string id) = Some c /\ lower_alnum c = true) /\
   (exists d, last (list_ascii_of_string id) = Some d /\ lower_alnum d = true)).
Proof.
  split.
  - intros H. apply validateTenantID_None in H as [Hlen Hm].
    apply RegexpFacts.MatchString_dnsNameRegex in Hm.
    pose proof (RegexpFacts.dns_shape_length _ Hm) as Hl.
    rewrite length_list_ascii_of_string in Hl.
    splits; try lia.
    + now apply RegexpFacts.dns_shape_chars.
    + now apply RegexpFacts.dns_shape_first.
    + now apply RegexpFacts.dns_shape_last.
  - intros (Hlen & Hall & (c & Hhd & Hc) & (d & Hlast & Hd)).
    unfold validateTenantID.
    destruct (String.eqb_spec id "") as [-> | _]; [simpl in Hlen; lia|].
    destruct (Nat.ltb_spec 53 (String.length id)); [lia|].
    assert (Hm : MatchString dnsNameRegex id = true); [|now rewrite Hm].
    apply RegexpFacts.MatchString_dnsNameRegex.
    rewrite <- length_list_ascii_of_string in Hlen.
    destruct (list_ascii_of_string id) as [|c' rest]; [discriminate|].
    injection Hhd as ->.
    destruct rest as [|x rest _] using rev_ind.
    + left. exists c. auto.
    + right. exists c, rest, d.
      change (c :: rest ++ [x])%list with ((c :: rest) ++ [x])%list in Hlast.
      rewrite last_snoc in Hlast. injection Hlast as ->.
      simpl in Hall, Hlen. rewrite length_app in Hlen. simpl in Hlen.
      apply andb_true_iff in Hall as [_ Hall].
      rewrite forallb_app in Hall. apply andb_true_iff in Hall as [Hall _].
      splits; auto. lia.
Qed.

Lemma validateTenantID_accepts_iff_witness :
  validateTenantID "team-7" = None /\ validateTenantID "team_7" <> None.
Proof.
  split.
  - apply (proj2 (validateTenantID_accepts_iff "team-7")).
    splits; try (simpl; lia); try reflexivity; eexists; split; reflexivity.
  - intros H. apply (proj1 (validateTenantID_accepts_iff "team_7")) in H.
    destruct H as (_ & H & _). vm_compute in H. discriminate.
Defined.

Lemma namespace_dns_label_47_witness :
  MatchString dnsNameRegex ("picoclaw-tenant-" ++ "acme") = true.
Proof. apply (namespace_dns_label_47 "acme"); [reflexivity | simpl; lia]. Defined.

(** ** Resource limits *)

Lemma mergeResources_pick (base override : Resources) :
  mergeResources base override =
  {| AgentCPU := pick (AgentCPU base) (AgentCPU override);
     AgentMemory := pick (AgentMemory base) (AgentMemory override);
     GatewayCPU := pick (GatewayCPU base) (GatewayCPU override);
     GatewayMemory := pick (GatewayMemory base) (GatewayMemory override);
     WorkspaceSize := pick (WorkspaceSize base) (WorkspaceSize override) |}.
Proof.
  destruct base as [b1 b2 b3 b4 b5], override as [o1 o2 o3 o4 o5].
  unfold mergeResources, pick; simpl.
  destruct (String.eqb o1 ""), (String.eqb o2 ""), (String.eqb o3 ""),
    (String.eqb o4 ""), (String.eqb o5 ""); reflexivity.
Qed.

Lemma pick_assoc (a b c : string) : pick (pick a b) c = pick a (pick b c).
Proof.
  unfold pick. destruct (String.eqb_spec c ""); [reflexivity|].
  destruct (String.eqb_spec c ""); [contradiction | reflexivity].
Qed.

Lemma pick_nonempty (a b : string) : a <> "" -> pick a b <> "".
Proof. unfold pick. now destruct (String.eqb_spec b ""). Qed.

(** X3. Two overrides applied one after the other are the same as their
    merge applied once; the override with five empty fields changes
    nothing; and an override with five non-empty fields replaces the base
    altogether. *)
Theorem mergeResources_compose (base o1 o2 : Resources) :
  mergeResources (mergeResources base o1) o2 = mergeResources base (mergeResources o1 o2) /\
  mergeResources base {| AgentCPU := ""; AgentMemory := ""; GatewayCPU := "";
                         GatewayMemory := ""; WorkspaceSize := "" |} = base /\
  (populated o1 -> mergeResources base o1 = o1).
Proof.
  splits.
  - rewrite !mergeResources_pick. simpl. now rewrite !pick_assoc.
  - now destruct base.
  - intros (H1 & H2 & H3 & H4 & H5). rewrite mergeResources_pick.
    destruct o1 as [a b c d e]. simpl in *. unfold pick.
    destruct (String.eqb_spec a ""), (String.eqb_spec b ""), (String.eqb_spec c ""),
      (String.eqb_spec d ""), (String.eqb_spec e ""); try contradiction.
    reflexivity.
Qed.

Lemma mergeResources_compose_witness :
  mergeResources DefaultResources
    {| AgentCPU := "1"; AgentMemory := "2Gi"; GatewayCPU := "1";
       GatewayMemory := "1Gi"; WorkspaceSize := "1Gi" |} =
  {| AgentCPU := "1"; AgentMemory := "2Gi"; GatewayCPU := "1";
     GatewayMemory := "1Gi"; WorkspaceSize := "1Gi" |}.
Proof.
  apply (mergeResources_compose DefaultResources
           {| AgentCPU := "1"; AgentMemory := "2Gi"; GatewayCPU := "1";
              GatewayMemory := "1Gi"; WorkspaceSize := "1Gi" |} DefaultResources).
  unfold populated; simpl; splits; discriminate.
Defined.

Lemma mergeResources_populated (base override : Resources) :
  populated base -> populated (mergeResources base override).
Proof.
  intros (H1 & H2 & H3 & H4 & H5). rewrite mergeResources_pick.
  unfold populated; simpl. splits; now apply pick_nonempty.
Qed.

Lemma DefaultResources_populated : populated DefaultResources.
Proof. unfold populated; simpl; splits; discriminate. Qed.

(** ** What Create leaves in the table *)

Section CreateTable.

Context (E : Env) (image : string).

(** [Create] either fails and leaves the table alone, or inserts one row
    under an ID that had none and returns the tenant with status
    ["active"]; the row is that tenant when the status update went
    through, and the ["provisioning"] row of the insert when it did not. *)
Lemma Create_table req w :
  (exists e, (Create E image req w).1 = Err e /\
             tenants (Create E image req w).2 = tenants w) \/
  (exists cfg,
     buildConfigJSON E (c_Providers req) (c_Agents req) (c_Channels req) = Ok cfg /\
     tenants w !! c_TenantID req = None /\
     (Create E image req w).1 = Ok (Create_result E req cfg) /\
     ((db_error E (UpdateTenant (Create_result E req cfg)) = None /\
       tenants (Create E image req w).2 =
         <[c_TenantID req := row_of_tenant (Create_result E req cfg)]> (tenants w)) \/
      (is_Some (db_error E (UpdateTenant (Create_result E req cfg))) /\
       tenants (Create E image req w).2 =
         <[c_TenantID req := row_of_tenant (Create_tenant E req cfg)]> (tenants w)))).
Proof.
  unfold Create.
  destruct (validateTenantID _); [left; eauto|].
  destruct (String.eqb _ ""); [left; eauto|].
  unfold bind, wrap, try, lift, fail, Store_Get.
  destruct (db_error E (SelectTenant _)); [left; eauto|].
  destruct (tenants w !! c_TenantID req) eqn:Hfree; simpl; [left; eauto|].
  destruct (buildConfigJSON E _ _ _) as [cfg | e]; [|left; eauto].
  destruct (RenderAll E _) as [manifests | e]; [|left; eauto].
  pose proof (Apply_tenants E manifests w) as Ht.
  destruct (Apply E manifests w) as [[[] | e] w1]; simpl in Ht; [|left; eauto].
  destruct (Store_Create E _ w1) as [[[] | e] w2] eqn:Hc.
  - apply Store_Create_Ok in Hc as [_ ->].
    right. exists cfg. splits; auto.
    + unfold Store_Update. fold (Create_result E req cfg).
      destruct (db_error E _); [reflexivity|]. simpl.
      rewrite lookup_insert_eq. reflexivity.
    + unfold Store_Update. fold (Create_result E req cfg).
      destruct (db_error E (UpdateTenant (Create_result E req cfg))) as [err|].
      * right. simpl. rewrite Ht. eauto.
      * left. split; [reflexivity|]. simpl. rewrite lookup_insert_eq. simpl.
        rewrite insert_insert_eq, Ht. reflexivity.
  - apply Store_Create_Err in Hc as [-> _].
    pose proof (DeleteNamespace_world E (Namespace (Create_tenant E req cfg)) w1) as Hd.
    destruct (DeleteNamespace E _ w1) as [r w3]. simpl in Hd. subst w3.
    left. eexists. split; [reflexivity|]. exact Ht.
Qed.

End CreateTable.

Lemma prefix_injective (a b : string) :
  "picoclaw-tenant-" ++ a = "picoclaw-tenant-" ++ b -> a = b.
Proof. simpl. intros H. now injection H. Qed.

(** In a table whose rows carry the namespace of their key, no row holds
    the namespace of an ID that has no row. *)
Lemma namespace_taken_fresh (m : gmap string Row) (id : string) :
  well_named m -> m !! id = None ->
  namespace_taken ("picoclaw-tenant-" ++ id) m = false.
Proof.
  intros Hm Hid. unfold namespace_taken. apply bool_decide_eq_false_2.
  intros (j & r & Hj & Hns). specialize (Hm j r Hj). simpl in Hm.
  rewrite Hm in Hns. apply prefix_injective in Hns. congruence.
Qed.

Lemma DeleteNamespace_run (E : Env) (ns : string) (w : World) :
  DeleteNamespace E ns w =
  (match api_error E (calls w) (NamespaceDeleteCall ns) with
   | Some err => Err (Wrapf "delete namespace %s: %w" [ns] err)
   | None => Ok tt
   end,
   {| tenants := tenants w; calls := calls w ++ [NamespaceDeleteCall ns] |}).
Proof.
  unfold DeleteNamespace, wrap, request.
  now destruct (api_error E (calls w) (NamespaceDeleteCall ns)).
Qed.

(** A successful [Delete] has found the row, asked the cluster to delete
    its namespace and removed it. *)
Lemma Delete_Ok (E : Env) (id : string) (w : World) :
  (Delete E id w).1 = Ok tt ->
  exists r, tenants w !! id = Some r /\
            tenants (Delete E id w).2 = delete id (tenants w) /\
            calls (Delete E id w).2 = (calls w ++ [NamespaceDeleteCall (namespace r)])%list.
Proof.
  unfold Delete, bind, Store_Get.
  destruct (db_error E (SelectTenant id)); [discriminate|].
  destruct (tenants w !! id) as [r|] eqn:Hr; simpl; [|discriminate].
  unfold wrap. rewrite DeleteNamespace_run.
  destruct (api_error E (calls w) _); [discriminate|].
  unfold Store_Delete. simpl.
  destruct (db_error E (DeleteTenant id)); [discriminate|].
  rewrite Hr. simpl. eauto.
Qed.

(** [Delete] leaves the table as it was or without the row of [id]. *)
Lemma Delete_table (E : Env) (id : string) (w : World) :
  tenants (Delete E id w).2 = tenants w \/
  tenants (Delete E id w).2 = delete id (tenants w).
Proof.
  unfold Delete, bind, Store_Get.
  destruct (db_error E (SelectTenant id)); [left; reflexivity|].
  destruct (tenants w !! id) as [r|] eqn:Hr; simpl; [|left; reflexivity].
  unfold wrap. rewrite DeleteNamespace_run.
  destruct (api_error E (calls w) _); [left; reflexivity|].
  unfold Store_Delete. simpl.
  destruct (db_error E (DeleteTenant id)); [left; reflexivity|].
  rewrite Hr. right. reflexivity.
Qed.

Lemma Restart_tenants (E : Env) (agentAt gatewayAt id : string) (w : World) :
  tenants (Restart E agentAt gatewayAt id w).2 = tenants w.
Proof.
  unfold Restart, bind, Store_Get.
  destruct (db_error E (SelectTenant id)); [reflexivity|].
  destruct (tenants w !! id) as [r|]; simpl; [|reflexivity].
  unfold RestartDeployment, wrap, request. simpl.
  destruct (api_error E _ _); [reflexivity|].
  destruct (api_error E _ _); reflexivity.
Qed.

(** ** Create *)

(** X4. A failed [Create] writes nothing to the table. A successful one adds
    exactly one row, under an ID that had none, and touches no other row;
    the row agrees with the returned tenant on display name, namespace
    and resource limits, and its status is ["active"] or, when the status
    update failed, ["provisioning"]. *)
Theorem Create_writes_one_row (E : Env) (image : string) (req : CreateRequest) (w : World) :
  (forall e, (Create E image req w).1 = Err e ->
             tenants (Create E image req w).2 = tenants w) /\
  (forall t, (Create E image req w).1 = Ok t ->
     tenants w !! c_TenantID req = None /\
     (forall j, j <> c_TenantID req ->
                tenants (Create E image req w).2 !! j = tenants w !! j) /\
     exists r, tenants (Create E image req w).2 !! c_TenantID req = Some r /\
               display_name r = DisplayName t /\ namespace r = Namespace t /\
               resources r = TResources t /\
               (status r = "active" \/ status r = "provisioning")).
Proof.
  destruct (Create_table E image req w)
    as [(e & He & Ht) | (cfg & Hcfg & Hfree & Hok & Hrow)].
  - split; [auto|]. intros t H. rewrite He in H. discriminate.
  - split; [intros e H; rewrite Hok in H; discriminate|].
    intros t H. rewrite Hok in H. injection H as <-.
    destruct Hrow as [[_ ->] | [_ ->]]; splits; auto;
      try (intros j Hj; now rewrite lookup_insert_ne);
      eexists; rewrite lookup_insert_eq; (split; [reflexivity|]); simpl; auto 10.
Qed.

Lemma Create_writes_one_row_witness :
  tenants (Create (Demo.failing_insert None) Demo.image Demo.acme Demo.empty_world).2 = ∅ /\
  exists r, tenants (Create Demo.env Demo.image Demo2.globex Demo.acme_world).2 !! "globex"
            = Some r /\
            namespace r = "picoclaw-tenant-globex" /\
            tenants (Create Demo.env Demo.image Demo2.globex Demo.acme_world).2 !! "acme"
            = Some Demo.acme_row.
Proof.
  split.
  - apply (Create_writes_one_row (Demo.failing_insert None) Demo.image Demo.acme
             Demo.empty_world)
      with (e := Wrapf "store tenant: %w" []
                   (Wrapf "insert tenant: %w" [] (External "connection refused"))).
    vm_compute. reflexivity.
  - destruct (Create_writes_one_row Demo.env Demo.image Demo2.globex Demo.acme_world)
      as [_ H].
    destruct (H (Create_result Demo.env Demo2.globex Demo.config))
      as (_ & Hother & r & Hr & _ & Hns & _); [vm_compute; reflexivity|].
    exists r. split; [exact Hr|]. split; [exact Hns|].
    rewrite Hother by discriminate. vm_compute. reflexivity.
Defined.

(** X5. When the status update that follows the insert fails, [Create] still
    returns the tenant with status ["active"], while the record that
    [Get] then returns has status ["provisioning"]; when the update goes
    through, the record has status ["active"]. Either way the record has
    the ID, display name, namespace and resource limits of the tenant
    that [Create] returned. *)
Theorem Create_status_update_swallowed (E : Env) (image : string) (req : CreateRequest)
    (w : World) (t : Tenant) :
  (Create E image req w).1 = Ok t ->
  Status t = "active" /\
  (forall E', db_error E' (SelectTenant (c_TenantID req)) = None ->
     exists t', Get E' (c_TenantID req) (Create E image req w).2 =
                  (Ok (Some t'), (Create E image req w).2) /\
                ID t' = ID t /\ DisplayName t' = DisplayName t /\
                Namespace t' = Namespace t /\ TResources t' = TResources t /\
                ((db_error E (UpdateTenant t) = None /\ Status t' = "active") \/
                 (is_Some (db_error E (UpdateTenant t)) /\
                  Status t' = "provisioning"))).
Proof.
  intros H.
  destruct (Create_table E image req w)
    as [(e & He & _) | (cfg & Hcfg & Hfree & Hok & Hrow)]; [congruence|].
  rewrite Hok in H. injection H as <-. split; [reflexivity|].
  intros E' Hdb. rewrite (Get_answer E' _ _ Hdb).
  destruct Hrow as [[Hup ->] | [Hup ->]]; rewrite lookup_insert_eq; simpl;
    eexists; (split; [reflexivity|]); simpl; splits; auto.
Qed.

Lemma Create_status_update_swallowed_witness :
  exists t t',
    (Create Demo2.failing_update Demo.image Demo.acme Demo.empty_world).1 = Ok t /\
    Status t = "active" /\
    (Get Demo.env "acme"
       (Create Demo2.failing_update Demo.image Demo.acme Demo.empty_world).2).1
      = Ok (Some t') /\
    Status t' = "provisioning".
Proof.
  destruct (Create_status_update_swallowed Demo2.failing_update Demo.image Demo.acme
              Demo.empty_world (Create_result Demo2.failing_update Demo.acme Demo.config))
    as [Hactive Hget]; [vm_compute; reflexivity|].
  destruct (Hget Demo.env eq_refl)
    as (t' & Ht' & _ & _ & _ & _ & [[Hup _] | [_ Hst]]);
    [vm_compute in Hup; discriminate|].
  eexists _, t'. split; [vm_compute; reflexivity|]. split; [exact Hactive|].
  split; [exact (f_equal fst Ht') | exact Hst].
Defined.

(** X6. For every ID that passes validation, a non-empty display name and a
    table that holds no record of the ID and whose rows carry the
    namespace of their key, [Create] succeeds when the store, the encoder,
    the renderer and the cluster answer: the tenant returned has the
    namespace ["picoclaw-tenant-" + id] and status ["active"], and the
    record is stored. *)
Theorem Create_succeeds (E : Env) (image : string) (req : CreateRequest) (w : World)
    (cfg manifests : string) :
  validateTenantID (c_TenantID req) = None ->
  c_DisplayName req <> "" ->
  well_named (tenants w) ->
  tenants w !! c_TenantID req = None ->
  db_error E (SelectTenant (c_TenantID req)) = None ->
  buildConfigJSON E (c_Providers req) (c_Agents req) (c_Channels req) = Ok cfg ->
  RenderAll E (ToVars (Create_tenant E req cfg) image) = Ok manifests ->
  (Apply E manifests w).1 = Ok tt ->
  db_error E (InsertTenant (Create_tenant E req cfg)) = None ->
  (Create E image req w).1 = Ok (Create_result E req cfg) /\
  ID (Create_result E req cfg) = c_TenantID req /\
  Namespace (Create_result E req cfg) = "picoclaw-tenant-" ++ c_TenantID req /\
  Status (Create_result E req cfg) = "active" /\
  is_Some (tenants (Create E image req w).2 !! c_TenantID req).
Proof.
  intros Hv Hname Hwn Hfree Hget Hcfg Hrender Happly Hinsert.
  pose proof (Apply_tenants E manifests w) as Ht.
  destruct (Apply E manifests w) as [r w1] eqn:Hap. simpl in Happly, Ht. subst r.
  rewrite (Create_applied E image req w cfg manifests w1) by auto.
  unfold Store_Create. rewrite Hinsert. simpl. rewrite Ht, Hfree.
  rewrite bool_decide_eq_false_2 by (intros [? ?]; discriminate).
  rewrite (namespace_taken_fresh _ _ Hwn Hfree). simpl.
  rewrite Store_Update_tenant. splits; auto.
  apply Store_Update_is_Some. simpl. rewrite lookup_insert_eq. eauto.
Qed.

Lemma Demo_acme_world_well_named : well_named (tenants Demo.acme_world).
Proof.
  assert (Hm : tenants Demo.acme_world = <["acme" := Demo.acme_row]> ∅)
    by (vm_compute; reflexivity).
  rewrite Hm. apply map_Forall_insert_2; [reflexivity | apply map_Forall_empty].
Defined.

Lemma Create_succeeds_witness :
  (Create Demo.env Demo.image Demo2.globex Demo.acme_world).1 =
    Ok (Create_result Demo.env Demo2.globex Demo.config) /\
  Namespace (Create_result Demo.env Demo2.globex Demo.config) = "picoclaw-tenant-globex".
Proof.
  destruct (Create_succeeds Demo.env Demo.image Demo2.globex Demo.acme_world Demo.config
              (match RenderAll Demo.env
                       (ToVars (Create_tenant Demo.env Demo2.globex Demo.config) Demo.image)
               with Ok m => m | Err _ => "" end))
    as (H1 & _ & H2 & _);
    [ vm_compute; reflexivity
    | discriminate
    | exact Demo_acme_world_well_named
    | vm_compute; reflexivity
    | reflexivity
    | vm_compute; reflexivity
    | vm_compute; reflexivity
    | vm_compute; reflexivity
    | reflexivity
    | ].
  split; [exact H1 | exact H2].
Defined.

(** ** Invariants of the table *)

(** What the three writing operations do to a property of rows: a row of
    the table after the call was there before, or is the row that the
    call wrote. *)
Lemma Create_rows (E : Env) (image : string) (req : CreateRequest) (w : World)
    (j : string) (r : Row) :
  tenants (Create E image req w).2 !! j = Some r ->
  tenants w !! j = Some r \/
  (j = c_TenantID req /\ exists cfg,
     namespace r = "picoclaw-tenant-" ++ c_TenantID req /\
     resources r = TResources (Create_tenant E req cfg)).
Proof.
  destruct (Create_table E image req w)
    as [(e & _ & ->) | (cfg & _ & _ & _ & [[_ ->] | [_ ->]])]; [auto| |];
    intros H; apply lookup_insert_Some in H as [[<- <-] | [_ H]]; auto;
    right; split; auto; exists cfg; auto.
Qed.

Lemma Update_rows (E : Env) (image : string) (id : string) (req : UpdateRequest)
    (w : World) (j : string) (r' : Row) :
  tenants (Update E image id req w).2 !! j = Some r' ->
  tenants w !! j = Some r' \/
  (j = id /\ exists r, tenants w !! id = Some r /\ namespace r' = namespace r /\
     created_at r' = created_at r /\ status r' = status r /\
     (resources r' = resources r \/
      exists o, u_Resources req = Some o /\ resources r' = mergeResources (resources r) o)).
Proof.
  destruct (tenants w !! id) as [r|] eqn:Hr.
  - destruct (Update_cases E image id req w r Hr)
      as [(e & _ & ->) | (t1 & Hcfg & _ & ->)]; [auto|].
    intros H. apply lookup_insert_Some in H as [[<- <-] | [_ H]]; [|auto].
    right. split; [reflexivity|]. exists r. simpl.
    assert (Hres : TResources t1 = resources r /\ Status t1 = status r).
    { apply Update_config_Ok in Hcfg as [(_ & _ & _ & ->) | (? & ? & _ & _ & ->)];
        unfold Update_renamed; destruct (negb _); auto. }
    destruct Hres as [Hres Hst].
    unfold Update_merged. destruct (u_Resources req) as [o|]; simpl;
      rewrite ?Hres, ?Hst; splits; eauto.
  - assert (Hsame : (Update E image id req w).2 = w); [|rewrite Hsame; auto].
    unfold Update, bind, Store_Get.
    destruct (db_error E (SelectTenant id)); [reflexivity|]. now rewrite Hr.
Qed.

(** X7. The namespace of every stored tenant is ["picoclaw-tenant-"] followed
    by its ID: [Create], [Update] and [Delete] keep this, whatever they
    return, and [Restart] does not write to the table at all. *)
Theorem service_keeps_namespaces (E : Env) (image : string) (w : World) :
  well_named (tenants w) ->
  (forall req, well_named (tenants (Create E image req w).2)) /\
  (forall id req, well_named (tenants (Update E image id req w).2)) /\
  (forall id, well_named (tenants (Delete E id w).2)) /\
  (forall agentAt gatewayAt id, tenants (Restart E agentAt gatewayAt id w).2 = tenants w).
Proof.
  intros Hw. splits.
  - intros req j r H. apply Create_rows in H as [H | (-> & cfg & Hns & _)].
    + exact (Hw j r H).
    + exact Hns.
  - intros id req j r' H.
    apply Update_rows in H as [H | (-> & r & Hr & Hns & _)].
    + exact (Hw j r' H).
    + simpl. rewrite Hns. exact (Hw id r Hr).
  - intros id. destruct (Delete_table E id w) as [-> | ->]; [exact Hw|].
    now apply map_Forall_delete.
  - intros. apply Restart_tenants.
Qed.

Lemma service_keeps_namespaces_witness :
  well_named (tenants (Create Demo.env Demo.image Demo2.globex Demo.acme_world).2).
Proof.
  destruct (service_keeps_namespaces Demo.env Demo.image Demo.acme_world
              Demo_acme_world_well_named) as [H _].
  exact (H Demo2.globex).
Defined.

(** X8. No stored tenant has an empty resource limit: [Create] writes rows
    with five non-empty limits for every request, and [Update] and
    [Delete] keep the property. *)
Theorem service_keeps_limits_populated (E : Env) (image : string) (w : World) :
  map_Forall (fun _ r => populated (resources r)) (tenants w) ->
  (forall req, map_Forall (fun _ r => populated (resources r))
                 (tenants (Create E image req w).2)) /\
  (forall id req, map_Forall (fun _ r => populated (resources r))
                    (tenants (Update E image id req w).2)) /\
  (forall id, map_Forall (fun _ r => populated (resources r))
                (tenants (Delete E id w).2)).
Proof.
  intros Hw. splits.
  - intros req j r H. apply Create_rows in H as [H | (-> & cfg & _ & ->)].
    + exact (Hw j r H).
    + simpl. destruct (c_Resources req).
      * apply mergeResources_populated, DefaultResources_populated.
      * apply DefaultResources_populated.
  - intros id req j r' H.
    apply Update_rows in H as [H | (-> & r & Hr & _ & _ & _ & [-> | (o & _ & ->)])].
    + exact (Hw j r' H).
    + exact (Hw id r Hr).
    + apply mergeResources_populated. exact (Hw id r Hr).
  - intros id. destruct (Delete_table E id w) as [-> | ->]; [exact Hw|].
    now apply map_Forall_delete.
Qed.

Lemma service_keeps_limits_populated_witness :
  map_Forall (fun _ r => populated (resources r))
    (tenants (Create Demo.env Demo.image Demo2.globex Demo.empty_world).2).
Proof.
  destruct (service_keeps_limits_populated Demo.env Demo.image Demo.empty_world
              (map_Forall_empty _)) as [H _].
  exact (H Demo2.globex).
Defined.

(** ** Delete *)

(** X9. Once the cluster has accepted the deletion of the namespace of an
    existing tenant, [Delete] has issued exactly that one request; if the
    store then deletes the row, [Delete] returns nil and [Get] finds no
    tenant; if the store fails, [Delete] returns the error of the store
    as it is and the row stays, although the namespace deletion has been
    issued. *)
Theorem Delete_after_namespace (E : Env) (id : string) (w : World) (r : Row) :
  tenants w !! id = Some r ->
  db_error E (SelectTenant id) = None ->
  api_error E (calls w) (NamespaceDeleteCall (namespace r)) = None ->
  calls (Delete E id w).2 = (calls w ++ [NamespaceDeleteCall (namespace r)])%list /\
  (db_error E (DeleteTenant id) = None ->
   (Delete E id w).1 = Ok tt /\
   tenants (Delete E id w).2 = delete id (tenants w) /\
   forall E', db_error E' (SelectTenant id) = None ->
              Get E' id (Delete E id w).2 = (Ok None, (Delete E id w).2)) /\
  (forall err, db_error E (DeleteTenant id) = Some err ->
   (Delete E id w).1 = Err (Wrapf "delete tenant: %w" [] err) /\
   tenants (Delete E id w).2 = tenants w).
Proof.
  intros Hr Hdb Hapi.
  unfold Delete, bind. rewrite (Store_Get_answer E id w Hdb), Hr. simpl.
  unfold wrap. rewrite DeleteNamespace_run, Hapi.
  unfold Store_Delete. simpl.
  destruct (db_error E (DeleteTenant id)) as [err|].
  - splits; [reflexivity | discriminate |]. intros ? [= <-]. auto.
  - rewrite Hr. simpl. splits; auto; [|discriminate].
    intros _. splits; auto. intros E' Hdb'.
    rewrite (Get_answer E' _ id Hdb'). simpl. now rewrite lookup_delete_eq.
Qed.

Lemma Delete_after_namespace_witness :
  (Delete Demo.env "acme" Demo.acme_world).1 = Ok tt /\
  tenants (Delete Demo.env "acme" Demo.acme_world).2 = delete "acme" (tenants Demo.acme_world) /\
  (Delete Demo2.failing_delete "acme" Demo.acme_world).1 =
    Err (Wrapf "delete tenant: %w" [] (External "connection reset")) /\
  tenants (Delete Demo2.failing_delete "acme" Demo.acme_world).2 = tenants Demo.acme_world.
Proof.
  destruct (Delete_after_namespace Demo.env "acme" Demo.acme_world Demo.acme_row)
    as (_ & Hok & _); try (vm_compute; reflexivity).
  destruct (Delete_after_namespace Demo2.failing_delete "acme" Demo.acme_world Demo.acme_row)
    as (_ & _ & Herr); try (vm_compute; reflexivity).
  destruct (Hok eq_refl) as (H1 & H2 & _).
  destruct (Herr (External "connection reset") eq_refl) as (H3 & H4).
  auto.
Defined.

(** X10. [Delete] undoes [Create]: after a successful [Create] of a tenant and
    a successful [Delete] of its ID, the table is what it was before the
    [Create], and the namespace that [Delete] asked the cluster to delete
    is the namespace of the tenant that [Create] returned. *)
Theorem Create_then_Delete (E1 E2 : Env) (image : string) (req : CreateRequest)
    (w w1 : World) (t : Tenant) :
  Create E1 image req w = (Ok t, w1) ->
  (Delete E2 (c_TenantID req) w1).1 = Ok tt ->
  tenants (Delete E2 (c_TenantID req) w1).2 = tenants w /\
  calls (Delete E2 (c_TenantID req) w1).2 = (calls w1 ++ [NamespaceDeleteCall (Namespace t)])%list.
Proof.
  intros Hc Hd.
  apply Delete_Ok in Hd as (r & Hr & -> & ->).
  destruct (Create_table E1 image req w)
    as [(e & He & _) | (cfg & _ & Hfree & Hok & Hrow)]; rewrite Hc in *; simpl in *;
    [discriminate|].
  injection Hok as ->.
  assert (Hw1 : exists r0, tenants w1 = <[c_TenantID req := r0]> (tenants w) /\
                           namespace r0 = Namespace (Create_result E1 req cfg)).
  { destruct Hrow as [[_ ->] | [_ ->]]; eexists; split; reflexivity. }
  destruct Hw1 as (r0 & Hw1 & Hns). rewrite Hw1 in *.
  rewrite lookup_insert_eq in Hr. injection Hr as <-.
  split.
  - now apply delete_insert_id.
  - now rewrite Hns.
Qed.

Lemma Create_then_Delete_witness :
  tenants (Delete Demo.env "acme" Demo.acme_world).2 = ∅ /\
  calls (Delete Demo.env "acme" Demo.acme_world).2 =
    (calls Demo.acme_world ++ [NamespaceDeleteCall "picoclaw-tenant-acme"])%list.
Proof.
  apply (Create_then_Delete Demo.env Demo.env Demo.image Demo.acme Demo.empty_world
           Demo.acme_world (tenant_of_row "acme" Demo.acme_row));
    vm_compute; reflexivity.
Defined.

(** ** Update *)

Lemma assign_sections_lookup (req : UpdateRequest) (existing : object) (key : string) :
  assign "channels" (u_Channels req)
    (assign "agents" (u_Agents req)
       (assign "providers" (u_Providers req) existing)) !! key =
  match supplied req key with
  | Some m => Some (VObject m)
  | None => existing !! key
  end.
Proof.
  unfold supplied, assign.
  destruct (String.eqb_spec key "providers") as [-> | Hp].
  { destruct (u_Channels req), (u_Agents req), (u_Providers req);
      repeat (rewrite lookup_insert_ne by discriminate);
      rewrite ?lookup_insert_eq; reflexivity. }
  destruct (String.eqb_spec key "agents") as [-> | Ha].
  { destruct (u_Channels req), (u_Agents req), (u_Providers req);
      repeat (rewrite lookup_insert_ne by discriminate);
      rewrite ?lookup_insert_eq;
      repeat (rewrite lookup_insert_ne by discriminate); reflexivity. }
  destruct (String.eqb_spec key "channels") as [-> | Hc].
  { destruct (u_Channels req), (u_Agents req), (u_Providers req);
      rewrite ?lookup_insert_eq;
      repeat (rewrite lookup_insert_ne by discriminate); reflexivity. }
  destruct (u_Channels req), (u_Agents req), (u_Providers req);
    repeat (rewrite lookup_insert_ne by congruence); reflexivity.
Qed.

(** X11. A successful [Update] that supplies at least one of the sections
    encodes the stored document with exactly the supplied sections
    replaced, each by the value of the request as a whole: under every
    key, [providers], [agents] and [channels] included, the new document
    holds the supplied value if there is one and the stored value
    otherwise; the [gateway] block is never touched. *)
Theorem Update_replaces_supplied_sections (E : Env) (image : string) (id : string)
    (req : UpdateRequest) (w : World) (r : Row) (t : Tenant) :
  tenants w !! id = Some r ->
  is_Some (u_Providers req) \/ is_Some (u_Agents req) \/ is_Some (u_Channels req) ->
  (Update E image id req w).1 = Ok t ->
  exists existing doc : object,
    json_Unmarshal E (config_json r) = Ok (Some existing) /\
    json_MarshalIndent E doc = Ok (ConfigJSON t) /\
    (forall key, doc !! key = match supplied req key with
                              | Some m => Some (VObject m)
                              | None => existing !! key
                              end) /\
    doc !! "gateway" = existing !! "gateway".
Proof.
  intros Hr Hsup Hup.
  destruct (Update_cases E image id req w r Hr)
    as [(e & He & _) | (t1 & Hcfg & Ht & _)]; [congruence|].
  rewrite Hup in Ht. injection Ht as ->.
  apply Update_config_Ok in Hcfg
    as [(Hp & Ha & Hc & _) | (existing & cfg & Hun & Hmar & ->)].
  { rewrite Hp, Ha, Hc in Hsup. destruct Hsup as [[? ?] | [[? ?] | [? ?]]]; discriminate. }
  assert (Hold : ConfigJSON (Update_renamed id req r) = config_json r).
  { unfold Update_renamed. now destruct (negb _). }
  rewrite Hold in Hun.
  exists existing, (assign "channels" (u_Channels req)
                      (assign "agents" (u_Agents req)
                         (assign "providers" (u_Providers req) existing))).
  splits; auto.
  - rewrite Hmar. unfold Update_merged. now destruct (u_Resources req).
  - intros key. apply assign_sections_lookup.
  - now rewrite assign_sections_lookup.
Qed.

Lemma Update_replaces_supplied_sections_witness :
  let a : object := {["defaults" := VObject {["model" := VString "large"]}]} in
  let req := {| u_DisplayName := ""; u_Providers := None; u_Agents := Some a;
                u_Channels := None; u_Resources := None |} in
  exists doc : object,
    doc !! "agents" = Some (VObject a) /\
    doc !! "providers" = Demo.stored_config !! "providers" /\
    doc !! "gateway" = Demo.stored_config !! "gateway".
Proof.
  cbv zeta.
  set (a := {["defaults" := VObject {["model" := VString "large"]}]} : object).
  set (req := {| u_DisplayName := ""; u_Providers := None; u_Agents := Some a;
                 u_Channels := None; u_Resources := None |}).
  destruct (Update_replaces_supplied_sections Demo.env Demo.image "acme" req Demo.acme_world
              Demo.acme_row
              (set_UpdatedAt 101
                 (set_ConfigJSON "{gateway,agents,providers}"
                    (tenant_of_row "acme" Demo.acme_row))))
    as (existing & doc & Hun & _ & Hkeys & Hgw);
    [ vm_compute; reflexivity
    | right; left; eexists; reflexivity
    | vm_compute; reflexivity
    | ].
  injection Hun as <-. exists doc. splits.
  - exact (Hkeys "agents").
  - exact (Hkeys "providers").
  - exact Hgw.
Defined.

(** X12. A failed [Update] of an existing tenant leaves the table alone. A
    successful one returns the stored tenant with its ID, namespace,
    status and creation time unchanged, the display name of the request
    if it has one, the resource limits merged with those of the request
    if it has any, and the update time of the store. No other row
    changes; the row of the tenant keeps its namespace, status and
    creation time and takes the display name and the resource limits of
    the tenant returned, and the record that [Get] then returns agrees
    with the tenant returned on ID, display name, namespace, resource
    limits, status and creation time. *)
Theorem Update_changes_one_row (E : Env) (image : string) (id : string)
    (req : UpdateRequest) (w : World) (r : Row) :
  tenants w !! id = Some r ->
  (forall e, (Update E image id req w).1 = Err e ->
             tenants (Update E image id req w).2 = tenants w) /\
  (forall t, (Update E image id req w).1 = Ok t ->
     ID t = id /\ Namespace t = namespace r /\ Status t = status r /\
     CreatedAt t = created_at r /\ UpdatedAt t = store_Now E /\
     DisplayName t = (if String.eqb (u_DisplayName req) "" then display_name r
                      else u_DisplayName req) /\
     TResources t = match u_Resources req with
                    | Some o => mergeResources (resources r) o
                    | None => resources r
                    end /\
     (forall j, j <> id ->
                tenants (Update E image id req w).2 !! j = tenants w !! j) /\
     (exists r', tenants (Update E image id req w).2 !! id = Some r' /\
                 display_name r' = DisplayName t /\ namespace r' = namespace r /\
                 resources r' = TResources t /\ status r' = status r /\
                 created_at r' = created_at r) /\
     forall E', db_error E' (SelectTenant id) = None ->
       exists t', Get E' id (Update E image id req w).2 =
                    (Ok (Some t'), (Update E image id req w).2) /\
                  ID t' = ID t /\ DisplayName t' = DisplayName t /\
                  Namespace t' = Namespace t /\ TResources t' = TResources t /\
                  Status t' = Status t /\ CreatedAt t' = CreatedAt t).
Proof.
  intros Hr.
  destruct (Update_cases E image id req w r Hr)
    as [(e & He & Ht) | (t1 & Hcfg & Ht & Hw)].
  { split; [auto|]. intros t H. congruence. }
  split; [intros e H; congruence|].
  intros t H. rewrite Ht in H. injection H as <-.
  assert (H1 : exists cfg, t1 = set_ConfigJSON cfg (Update_renamed id req r)).
  { apply Update_config_Ok in Hcfg as [(_ & _ & _ & ->) | (? & cfg & _ & _ & ->)].
    - eexists. symmetry. apply set_ConfigJSON_same.
    - eauto. }
  destruct H1 as [cfg ->].
  assert (Hfields :
            ID (Update_merged req (set_ConfigJSON cfg (Update_renamed id req r))) = id /\
            Namespace (Update_merged req (set_ConfigJSON cfg (Update_renamed id req r)))
              = namespace r /\
            Status (Update_merged req (set_ConfigJSON cfg (Update_renamed id req r)))
              = status r /\
            CreatedAt (Update_merged req (set_ConfigJSON cfg (Update_renamed id req r)))
              = created_at r /\
            DisplayName (Update_merged req (set_ConfigJSON cfg (Update_renamed id req r)))
              = (if String.eqb (u_DisplayName req) "" then display_name r
                 else u_DisplayName req) /\
            TResources (Update_merged req (set_ConfigJSON cfg (Update_renamed id req r)))
              = match u_Resources req with
                | Some o => mergeResources (resources r) o
                | None => resources r
                end).
  { unfold Update_merged, Update_renamed.
    destruct (u_Resources req), (String.eqb (u_DisplayName req) ""); simpl; auto 10. }
  destruct Hfields as (F1 & F2 & F3 & F4 & F5 & F6).
  assert (Hrow : tenants (Update E image id req w).2 =
                 <[id := row_of_tenant
                           (set_UpdatedAt (store_Now E)
                              (Update_merged req
                                 (set_ConfigJSON cfg (Update_renamed id req r))))]>
                   (tenants w)).
  { rewrite Hw. unfold row_of_tenant. simpl. now rewrite F2, F4. }
  splits; auto.
  - intros j Hj. rewrite Hrow. now apply lookup_insert_ne.
  - eexists. rewrite Hrow, lookup_insert_eq. split; [reflexivity|]. simpl.
    rewrite F2, F3, F4. auto.
  - intros E' Hdb. rewrite (Get_answer E' _ id Hdb), Hrow, lookup_insert_eq. simpl.
    eexists. split; [reflexivity|]. simpl. auto 10.
Qed.

Lemma Update_changes_one_row_witness :
  let req := {| u_DisplayName := ""; u_Providers := None; u_Agents := None;
                u_Channels := None;
                u_Resources := Some {| AgentCPU := ""; AgentMemory := "2Gi"; GatewayCPU := "";
                                       GatewayMemory := ""; WorkspaceSize := "" |} |} in
  exists t,
    (Update Demo.env Demo.image "acme" req Demo.acme_world).1 = Ok t /\
    TResources t = {| AgentCPU := "500m"; AgentMemory := "2Gi"; GatewayCPU := "250m";
                      GatewayMemory := "512Mi"; WorkspaceSize := "500Mi" |} /\
    Namespace t = "picoclaw-tenant-acme" /\
    exists t',
      (Get Demo.env "acme" (Update Demo.env Demo.image "acme" req Demo.acme_world).2).1
        = Ok (Some t') /\
      TResources t' = TResources t.
Proof.
  cbv zeta.
  set (req := {| u_DisplayName := ""; u_Providers := None; u_Agents := None;
                 u_Channels := None;
                 u_Resources := Some {| AgentCPU := ""; AgentMemory := "2Gi";
                                        GatewayCPU := ""; GatewayMemory := "";
                                        WorkspaceSize := "" |} |}).
  destruct (Update_changes_one_row Demo.env Demo.image "acme" req Demo.acme_world
              Demo.acme_row) as [_ H]; [vm_compute; reflexivity|].
  set (t := set_UpdatedAt 101
              (set_Resources {| AgentCPU := "500m"; AgentMemory := "2Gi";
                                GatewayCPU := "250m"; GatewayMemory := "512Mi";
                                WorkspaceSize := "500Mi" |}
                 (tenant_of_row "acme" Demo.acme_row))).
  destruct (H t) as (_ & Hns & _ & _ & _ & _ & Hres & _ & _ & Hget);
    [vm_compute; reflexivity|].
  destruct (Hget Demo.env eq_refl) as (t' & Ht' & _ & _ & _ & Hres' & _).
  exists t. split; [vm_compute; reflexivity|]. split; [exact Hres|]. split; [exact Hns|].
  exists t'. split; [exact (f_equal fst Ht') | exact Hres'].
Defined.

(** X13. [Update] gives up before it renders or applies anything, and leaves
    the cluster and the table as they were, when the tenant is unknown
    (not-found error) and when a section is supplied but the stored
    configuration does not decode (the decoder's error, wrapped) or
    decodes to a nil map, as JSON [null] does (the assignment to an entry
    of a nil map panics). *)
Theorem Update_early_failures (E : Env) (image : string) (id : string)
    (req : UpdateRequest) (w : World) :
  db_error E (SelectTenant id) = None ->
  (tenants w !! id = None ->
   Update E image id req w = (Err (Errorf "tenant %q not found" [id]), w)) /\
  (forall r, tenants w !! id = Some r ->
     is_Some (u_Providers req) \/ is_Some (u_Agents req) \/ is_Some (u_Channels req) ->
     (forall err, json_Unmarshal E (config_json r) = Err err ->
        Update E image id req w =
          (Err (Wrapf "unmarshal existing config: %w" [] err), w)) /\
     (json_Unmarshal E (config_json r) = Ok None ->
        Update E image id req w = (Err (Panic "assignment to entry in nil map"), w))).
Proof.
  intros Hdb. split.
  - intros Hr. unfold Update, bind. now rewrite (Store_Get_answer E id w Hdb), Hr.
  - intros r Hr Hsup.
    assert (Hcond : bool_decide (is_Some (u_Providers req))
                    || bool_decide (is_Some (u_Agents req))
                    || bool_decide (is_Some (u_Channels req)) = true).
    { destruct Hsup as [H | [H | H]]; rewrite (bool_decide_eq_true_2 _ H);
        rewrite ?orb_true_r; reflexivity. }
    assert (Hold : ConfigJSON (Update_renamed id req r) = config_json r).
    { unfold Update_renamed. now destruct (negb _). }
    split.
    + intros err Herr. unfold Update, bind.
      rewrite (Store_Get_answer E id w Hdb), Hr. simpl.
      fold (Update_renamed id req r).
      unfold Update_config, bind, wrap, lift. rewrite Hcond, Hold, Herr. reflexivity.
    + intros Hnil. unfold Update, bind.
      rewrite (Store_Get_answer E id w Hdb), Hr. simpl.
      fold (Update_renamed id req r).
      unfold Update_config, bind, wrap, lift. rewrite Hcond, Hold, Hnil. reflexivity.
Qed.

Lemma Update_early_failures_witness :
  Update Demo.env Demo.image "ghost"
    {| u_DisplayName := "Ghost"; u_Providers := None; u_Agents := None;
       u_Channels := None; u_Resources := None |} Demo.acme_world =
  (Err (Errorf "tenant %q not found" ["ghost"]), Demo.acme_world) /\
  Update Demo2.null_config Demo.image "acme"
    {| u_DisplayName := ""; u_Providers := Some ∅; u_Agents := None;
       u_Channels := None; u_Resources := None |} Demo.acme_world =
  (Err (Panic "assignment to entry in nil map"), Demo.acme_world).
Proof.
  split.
  - apply (Update_early_failures Demo.env Demo.image "ghost" _ Demo.acme_world);
      vm_compute; reflexivity.
  - destruct (Update_early_failures Demo2.null_config Demo.image "acme"
                {| u_DisplayName := ""; u_Providers := Some ∅; u_Agents := None;
                   u_Channels := None; u_Resources := None |} Demo.acme_world eq_refl)
      as [_ H].
    destruct (H Demo.acme_row) as [_ Hnil];
      [vm_compute; reflexivity | left; eexists; reflexivity |].
    apply Hnil. reflexivity.
Defined.

(** ** The store *)

Lemma tenant_of_row_of_tenant (t : Tenant) : tenant_of_row (ID t) (row_of_tenant t) = t.
Proof. now destruct t. Qed.

(** X14. Insert, lookup and delete: after [Store.Create] has stored a
    tenant, [Store.Get] of its ID returns a record with the ID, display
    name, namespace, resource limits and status of that tenant, a second
    [Store.Create] of it is refused, and [Store.Delete] of the ID leaves
    the table as it was before the insert, makes [Store.Get] return no
    tenant and a second [Store.Delete] fail with the not-found error. *)
Theorem Store_round_trip (E : Env) (t : Tenant) (w w' : World) :
  Store_Create E t w = (Ok tt, w') ->
  (forall E', db_error E' (SelectTenant (ID t)) = None ->
     exists t', Store_Get E' (ID t) w' = (Ok (Some t'), w') /\
                ID t' = ID t /\ DisplayName t' = DisplayName t /\
                Namespace t' = Namespace t /\ TResources t' = TResources t /\
                Status t' = Status t) /\
  (forall E', exists cause,
     Store_Create E' t w' = (Err (Wrapf "insert tenant: %w" [] cause), w')) /\
  (forall E', db_error E' (DeleteTenant (ID t)) = None ->
     (Store_Delete E' (ID t) w').1 = Ok tt /\
     tenants (Store_Delete E' (ID t) w').2 = tenants w /\
     (forall E'', db_error E'' (SelectTenant (ID t)) = None ->
        (Store_Get E'' (ID t) (Store_Delete E' (ID t) w').2).1 = Ok None) /\
     (forall E'', db_error E'' (DeleteTenant (ID t)) = None ->
        (Store_Delete E'' (ID t) (Store_Delete E' (ID t) w').2).1 =
          Err (Errorf "tenant %q not found" [ID t]))).
Proof.
  intros Hc. apply Store_Create_Ok in Hc as [Hfree ->]. splits.
  - intros E' Hdb. rewrite (Store_Get_answer E' _ _ Hdb). simpl.
    rewrite lookup_insert_eq. simpl. eexists. split; [reflexivity|]. simpl. auto.
  - intros E'. unfold Store_Create. destruct (db_error E' (InsertTenant t)); [eauto|].
    simpl. rewrite lookup_insert_eq.
    rewrite bool_decide_eq_true_2 by eauto. eauto.
  - intros E' Hdb. unfold Store_Delete. rewrite Hdb. simpl.
    rewrite lookup_insert_eq. simpl. rewrite (delete_insert_id _ _ _ Hfree).
    splits; auto.
    + intros E'' Hdb'. unfold Store_Get. rewrite Hdb'. simpl. now rewrite Hfree.
    + intros E'' Hdb'. rewrite Hdb'. simpl. now rewrite Hfree.
Qed.

Lemma Store_round_trip_witness :
  exists t',
    Store_Get Demo.env "acme"
      {| tenants := <["acme" := Demo.acme_row]> ∅; calls := [] |} =
    (Ok (Some t'), {| tenants := <["acme" := Demo.acme_row]> ∅; calls := [] |}) /\
    DisplayName t' = "ACME" /\ Namespace t' = "picoclaw-tenant-acme" /\
    Status t' = "active".
Proof.
  destruct (Store_round_trip Demo.env (tenant_of_row "acme" Demo.acme_row)
              Demo.empty_world
              {| tenants := <["acme" := Demo.acme_row]> ∅; calls := [] |})
    as [Hget _]; [vm_compute; reflexivity|].
  destruct (Hget Demo.env eq_refl) as (t' & Ht' & _ & Hname & Hns & _ & Hst).
  exists t'. split; [exact Ht'|]. split; [exact Hname|]. split; [exact Hns | exact Hst].
Defined.



(** ** List *)

Lemma created_le_total : Total created_le.
Proof. intros a b. unfold created_le. lia. Qed.

(** X16. [List] returns every stored tenant exactly once, in the order of
    creation time: the result is sorted by [created_at], a tenant is in it
    exactly when its row is in the table, no ID occurs twice, and there
    are as many tenants as rows. *)
Theorem List_sorted_complete (E : Env) (w w' : World) (l : list Tenant) :
  List E w = (Ok l, w') ->
  w' = w /\
  Sorted created_le l /\
  (forall t, t ∈ l <-> tenants w !! ID t = Some (row_of_tenant t)) /\
  NoDup (ID <$> l) /\
  length l = size (tenants w).
Proof.
  unfold List, Store_List.
  destruct (db_error E SelectTenants); [discriminate|].
  intros [= <- <-].
  set (rows := (fun kr : string * Row => tenant_of_row kr.1 kr.2) <$> map_to_list (tenants w)).
  pose proof (merge_sort_Permutation created_le rows) as Hperm.
  splits.
  - reflexivity.
  - apply (@Sorted_merge_sort _ created_le _ created_le_total).
  - intros t. rewrite Hperm. unfold rows. rewrite list_elem_of_fmap. split.
    + intros ([j r] & -> & Hin). apply elem_of_map_to_list in Hin. simpl.
      rewrite Hin. now destruct r.
    + intros H. exists (ID t, row_of_tenant t). split.
      * simpl. now rewrite tenant_of_row_of_tenant.
      * now apply elem_of_map_to_list.
  - rewrite Hperm. unfold rows. rewrite <- list_fmap_compose.
    apply (NoDup_fst_map_to_list (tenants w)).
  - rewrite Hperm. unfold rows. rewrite length_fmap. apply length_map_to_list.
Qed.

Lemma List_sorted_complete_witness :
  exists l, (List Demo.env (Create Demo.env Demo.image Demo2.globex Demo.acme_world).2).1
            = Ok l /\
            length l = 2 /\ Sorted created_le l.
Proof.
  set (w := (Create Demo.env Demo.image Demo2.globex Demo.acme_world).2).
  destruct (List Demo.env w) as [[l | e] w'] eqn:Hl.
  - destruct (List_sorted_complete Demo.env w w' l Hl) as (_ & Hs & _ & _ & Hlen).
    exists l. split; [reflexivity|]. split; [|exact Hs].
    rewrite Hlen. vm_compute. reflexivity.
  - exfalso. revert Hl. vm_compute. discriminate.
Defined.

(** ** RenderAll *)

Lemma string_app_assoc (a b c : string) : (a ++ b) ++ c = a ++ b ++ c.
Proof.
  induction a as [|x a IH]; [reflexivity|].
  change (String x ((a ++ b) ++ c) = String x (a ++ b ++ c)). now f_equal.
Qed.

Lemma string_app_nil_r (a : string) : a ++ "" = a.
Proof.
  induction a as [|x a IH]; [reflexivity|].
  change (String x (a ++ "") = String x a). now f_equal.
Qed.

Lemma concat_join_after (sep out : string) (outs : list string) :
  String.concat sep (out :: outs) = out ++ join_after sep outs.
Proof.
  revert out. induction outs as [|x outs IH]; intros out.
  - simpl. now rewrite string_app_nil_r.
  - change (String.concat sep (out :: x :: outs))
      with (out ++ sep ++ String.concat sep (x :: outs)).
    now rewrite IH.
Qed.

Section Render.

Context (E : Env) (vars : TenantVars).

Lemma RenderAll_from_later names outs i buf :
  Forall2 (fun name out => ExecuteTemplate E name vars = Ok out) names outs ->
  RenderAll_from E names (S i) buf vars = Ok (buf ++ join_after ("---" ++ newline) outs).
Proof.
  intros H. revert i buf. induction H as [|name out names outs Hout _ IH]; intros i buf.
  - simpl. now rewrite string_app_nil_r.
  - cbn [RenderAll_from]. change (0 <? S i)%nat with true. cbv iota.
    rewrite Hout, IH. f_equal.
    cbn [join_after]. now rewrite !string_app_assoc.
Qed.

Lemma RenderAll_from_Err pre name post err i buf :
  Forall (fun n => exists out, ExecuteTemplate E n vars = Ok out) pre ->
  ExecuteTemplate E name vars = Err err ->
  RenderAll_from E (pre ++ name :: post) i buf vars =
  Err (Wrapf "render template %s: %w" [name] err).
Proof.
  intros Hpre Herr. revert i buf.
  induction Hpre as [|n pre [out Hout] _ IH]; intros i buf.
  - simpl. now rewrite Herr.
  - simpl. rewrite Hout. apply IH.
Qed.

End Render.

(** X17. When every template executes, [RenderAll] returns their outputs in
    the order of [templateNames], joined by the line [---]; when one
    fails, it returns the error of the first template that fails, wrapped
    with the name of that template, and no output. *)
Theorem RenderAll_joins (E : Env) (vars : TenantVars) :
  (forall outs,
     Forall2 (fun name out => ExecuteTemplate E name vars = Ok out) templateNames outs ->
     RenderAll E vars = Ok (String.concat ("---" ++ newline) outs)) /\
  (forall pre name post err,
     templateNames = (pre ++ name :: post)%list ->
     Forall (fun n => exists out, ExecuteTemplate E n vars = Ok out) pre ->
     ExecuteTemplate E name vars = Err err ->
     RenderAll E vars = Err (Wrapf "render template %s: %w" [name] err)).
Proof.
  split.
  - intros outs H. unfold RenderAll.
    destruct H as [|name out names outs Hout H]; [reflexivity|].
    cbn [RenderAll_from]. change (0 <? 0)%nat with false. cbv iota.
    rewrite Hout, (RenderAll_from_later E vars _ _ _ _ H), concat_join_after.
    reflexivity.
  - intros pre name post err Hnames Hpre Herr. unfold RenderAll. rewrite Hnames.
    now apply RenderAll_from_Err.
Qed.

Lemma RenderAll_joins_witness :
  RenderAll Demo.env (ToVars (tenant_of_row "acme" Demo.acme_row) Demo.image) =
    Ok Demo.acme_manifests /\
  RenderAll Demo2.failing_pvc (ToVars (tenant_of_row "acme" Demo.acme_row) Demo.image) =
    Err (Wrapf "render template %s: %w" ["pvc.yaml.tmpl"]
           (External "template: no such template")).
Proof.
  destruct (RenderAll_joins Demo.env
              (ToVars (tenant_of_row "acme" Demo.acme_row) Demo.image)) as [Hok _].
  destruct (RenderAll_joins Demo2.failing_pvc
              (ToVars (tenant_of_row "acme" Demo.acme_row) Demo.image)) as [_ Herr].
  split.
  - rewrite (Hok ((fun name => name ++ newline) <$> templateNames))
      by repeat constructor.
    vm_compute. reflexivity.
  - apply (Herr ["namespace.yaml.tmpl"; "configmap.yaml.tmpl"] "pvc.yaml.tmpl"
             ["rbac.yaml.tmpl"; "agent-deployment.yaml.tmpl";
              "gateway-deployment.yaml.tmpl"; "gateway-service.yaml.tmpl"]).
    + reflexivity.
    + repeat constructor; eexists; reflexivity.
    + reflexivity.
Defined.

(** ** buildConfigJSON *)

(** X18. The document that [buildConfigJSON] encodes always has the fixed
    [gateway] block, whatever the caller supplies; it has the keys
    [providers], [agents] and [channels] exactly for the sections that
    are supplied, holding the supplied values, and no other key. *)
Theorem buildConfigJSON_document (providers agents channels : option object) :
  exists doc : object,
    (forall E, buildConfigJSON E providers agents channels = json_MarshalIndent E doc) /\
    doc !! "gateway" = Some gateway_block /\
    doc !! "providers" = VObject <$> providers /\
    doc !! "agents" = VObject <$> agents /\
    doc !! "channels" = VObject <$> channels /\
    (forall key, key <> "gateway" -> key <> "providers" -> key <> "agents" ->
                 key <> "channels" -> doc !! key = None).
Proof.
  eexists. split; [intros E; reflexivity|].
  unfold assign, gateway_block.
  destruct providers, agents, channels; simpl; splits;
    try (intros key H1 H2 H3 H4);
    repeat (rewrite lookup_insert_ne by (discriminate || congruence));
    rewrite ?lookup_insert_eq;
    repeat (rewrite lookup_insert_ne by (discriminate || congruence));
    rewrite ?lookup_singleton_eq, ?lookup_empty;
    try reflexivity;
    try (rewrite lookup_singleton_ne by (discriminate || congruence); reflexivity).
Qed.

(** ** Restart *)

(** X19. [Restart] of an unknown tenant returns the not-found error and
    issues nothing. For an existing tenant it patches the agent
    deployment first: if the cluster refuses, that error is returned and
    the gateway is never patched; otherwise the gateway deployment is
    patched next, in the same namespace, and its outcome is the result.
    The first restart is not undone when the second fails. *)
Theorem Restart_agent_then_gateway (E : Env) (agentAt gatewayAt id : string) (w : World) :
  db_error E (SelectTenant id) = None ->
  (tenants w !! id = None ->
   Restart E agentAt gatewayAt id w = (Err (Errorf "tenant %q not found" [id]), w)) /\
  (forall r, tenants w !! id = Some r ->
     (forall err,
        api_error E (calls w) (restart_agent agentAt (namespace r)) = Some err ->
        Restart E agentAt gatewayAt id w =
          (Err (Wrapf "restart agent: %w" []
                  (Wrapf "restart deployment %s/%s: %w" [namespace r; "picoclaw-agent"] err)),
           {| tenants := tenants w;
              calls := calls w ++ [restart_agent agentAt (namespace r)] |})) /\
     (api_error E (calls w) (restart_agent agentAt (namespace r)) = None ->
      (Restart E agentAt gatewayAt id w).2 =
        {| tenants := tenants w;
           calls := calls w ++ [restart_agent agentAt (namespace r);
                                restart_gateway gatewayAt (namespace r)] |} /\
      (Restart E agentAt gatewayAt id w).1 =
        match api_error E (calls w ++ [restart_agent agentAt (namespace r)])
                (restart_gateway gatewayAt (namespace r)) with
        | None => Ok tt
        | Some err =>
            Err (Wrapf "restart gateway: %w" []
                   (Wrapf "restart deployment %s/%s: %w"
                      [namespace r; "picoclaw-gateway"] err))
        end)).
Proof.
  intros Hdb. split.
  - intros Hr. unfold Restart, bind. now rewrite (Store_Get_answer E id w Hdb), Hr.
  - intros r Hr. unfold Restart, bind.
    rewrite (Store_Get_answer E id w Hdb), Hr. simpl.
    unfold RestartDeployment, wrap, request, restart_agent, restart_gateway. simpl.
    split.
    + intros err ->. reflexivity.
    + intros ->. simpl. rewrite <- app_assoc. simpl.
      destruct (api_error E _ _); auto.
Qed.

Lemma Restart_agent_then_gateway_witness :
  (Restart Demo.env Demo2.agentAt Demo2.gatewayAt "acme" Demo.acme_world).1 = Ok tt /\
  calls (Restart Demo.env Demo2.agentAt Demo2.gatewayAt "acme" Demo.acme_world).2 =
    (calls Demo.acme_world ++
     [restart_agent Demo2.agentAt "picoclaw-tenant-acme";
      restart_gateway Demo2.gatewayAt "picoclaw-tenant-acme"])%list /\
  calls (Restart Demo2.failing_agent Demo2.agentAt Demo2.gatewayAt "acme" Demo.acme_world).2 =
    (calls Demo.acme_world ++ [restart_agent Demo2.agentAt "picoclaw-tenant-acme"])%list.
Proof.
  destruct (Restart_agent_then_gateway Demo.env Demo2.agentAt Demo2.gatewayAt "acme"
              Demo.acme_world eq_refl) as [_ H].
  destruct (H Demo.acme_row) as [_ Hok]; [vm_compute; reflexivity|].
  destruct Hok as [Hw Hr]; [reflexivity|].
  destruct (Restart_agent_then_gateway Demo2.failing_agent Demo2.agentAt Demo2.gatewayAt
              "acme" Demo.acme_world eq_refl) as [_ H'].
  destruct (H' Demo.acme_row) as [Herr _]; [vm_compute; reflexivity|].
  splits.
  - rewrite Hr. reflexivity.
  - rewrite Hw. reflexivity.
  - rewrite (Herr (External "deployments.apps not found") eq_refl). reflexivity.
Defined.

(** ** Apply, request by request *)

Lemma Apply_loop_trace (E : Env) (objects : list Unstructured) (w : World) :
  (Apply_loop E objects w).1 = Ok tt ->
  calls (Apply_loop E objects w).2 = (calls w ++ flat_map (apply_calls E) objects)%list.
Proof.
  revert w. induction objects as [|obj objects IH]; intros w.
  - simpl. now rewrite app_nil_r.
  - simpl. unfold bind.
    assert (Hone : (Apply_one E obj w).1 = Ok tt ->
                   calls (Apply_one E obj w).2 = (calls w ++ apply_calls E obj)%list).
    { unfold Apply_one, mapper_RESTMapping, bind, wrap, lift, discover, request,
        apply_calls. simpl.
      destruct (RESTMapping E _ _ _) as [[resource scope] | e]; simpl; [|discriminate].
      destruct (MarshalJSON E obj) as [data | e]; simpl; [|discriminate].
      destruct (api_error E _ _); simpl; [discriminate|].
      intros _. now rewrite <- app_assoc. }
    destruct (Apply_one E obj w) as [[[] | e] w1]; simpl in *; [|discriminate].
    intros H. rewrite (IH w1 H), (Hone eq_refl), <- app_assoc. reflexivity.
Qed.

(** X20. When [Apply] returns nil, the requests it has issued are, for each
    document with a non-empty kind and in the order of the stream, one
    discovery lookup for the kind of the document followed by the patch
    of the document, and nothing else: no document is patched before its
    resource has been resolved, and nothing is deleted. *)
Theorem Apply_trace (E : Env) (manifests : string) (w : World) :
  (Apply E manifests w).1 = Ok tt ->
  calls (Apply E manifests w).2 =
    (calls w ++ flat_map (apply_calls E) (List.filter has_kind (documents E manifests)))%list /\
  tenants (Apply E manifests w).2 = tenants w.
Proof.
  intros H. split; [|apply Apply_tenants].
  revert H. unfold Apply, bind, wrap, lift, buildMapper.
  destruct (parseYAMLDocuments E manifests) as [objects | e] eqn:Hparse; [|discriminate].
  apply parseYAMLDocuments_Ok in Hparse. subst objects. simpl.
  destruct (NewDiscoveryClientForConfig E); simpl; [discriminate|].
  apply Apply_loop_trace.
Qed.

Lemma Apply_trace_witness :
  calls (Apply Demo.env Demo.stream Demo.empty_world).2 =
  [ RESTMappingCall "" "Namespace" "v1";
    PatchCall "namespaces" None "namespace.yaml.tmpl" "namespace.yaml.tmpl" "picoclaw-manager";
    RESTMappingCall "" "ConfigMap" "v1";
    PatchCall "ConfigMap" (Some "picoclaw-tenant-acme") "configmap.yaml.tmpl"
      "configmap.yaml.tmpl" "picoclaw-manager" ].
Proof.
  destruct (Apply_trace Demo.env Demo.stream Demo.empty_world) as [H _];
    [vm_compute; reflexivity|].
  rewrite H. vm_compute. reflexivity.
Defined.

(** ** The API layer *)

Lemma CutPrefix_from_Some (s prefix after : string) :
  CutPrefix_from s prefix = Some after <-> s = prefix ++ after.
Proof.
  revert s. induction prefix as [|a prefix IH]; intros s; simpl.
  - split; [intros [= ->]; reflexivity | intros ->; reflexivity].
  - destruct s as [|b s]; [split; discriminate|].
    destruct (Ascii.eqb_spec a b) as [<- | Hne].
    + rewrite IH. split; [intros ->; reflexivity | intros [= ->]; reflexivity].
    + split; [discriminate | intros [= <- _]; contradiction].
Qed.

(** X21. [APIKeyAuth] lets a request through to the next handler exactly when
    its [Authorization] header is ["Bearer "] followed by the configured
    key. A header that starts with ["Bearer "] and carries another token
    is answered 403; any other header, the missing one included, is
    answered 401; in both cases the next handler does not run. *)
Theorem APIKeyAuth_passes_iff (apiKey auth : string) (next : Handler) (w : World) :
  (auth = "Bearer " ++ apiKey -> APIKeyAuth apiKey next auth w = next w) /\
  (forall token, auth = "Bearer " ++ token -> token <> apiKey ->
     APIKeyAuth apiKey next auth w =
       (writeJSON 403 (ErrorBody (Literal "invalid api key")), w)) /\
  ((forall token, auth <> "Bearer " ++ token) ->
     StatusCode (APIKeyAuth apiKey next auth w).1 = 401 /\
     (APIKeyAuth apiKey next auth w).2 = w).
Proof.
  unfold APIKeyAuth, CutPrefix, ConstantTimeCompare. splits.
  - intros ->.
    change (String.eqb ("Bearer " ++ apiKey) "") with false. cbv iota.
    rewrite (proj2 (CutPrefix_from_Some ("Bearer " ++ apiKey) "Bearer " apiKey) eq_refl).
    rewrite String.eqb_refl. reflexivity.
  - intros token -> Hne.
    change (String.eqb ("Bearer " ++ token) "") with false. cbv iota.
    rewrite (proj2 (CutPrefix_from_Some ("Bearer " ++ token) "Bearer " token) eq_refl).
    destruct (String.eqb_spec token apiKey); [contradiction | reflexivity].
  - intros Hno. destruct (String.eqb auth ""); [auto|].
    destruct (CutPrefix_from auth "Bearer ") as [after|] eqn:Hcut; [|auto].
    apply CutPrefix_from_Some in Hcut. now destruct (Hno after).
Qed.

Lemma APIKeyAuth_passes_iff_witness :
  APIKeyAuth "test-api-key" (Handlers.DeleteTenant Demo.env "acme") "Bearer wrong"
    Demo.acme_world =
  (writeJSON 403 (ErrorBody (Literal "invalid api key")), Demo.acme_world) /\
  (APIKeyAuth "test-api-key" (Handlers.DeleteTenant Demo.env "acme") "Bearer test-api-key"
     Demo.acme_world).1 = {| StatusCode := 204; ResponseBody := NoBody |}.
Proof.
  destruct (APIKeyAuth_passes_iff "test-api-key" "Bearer wrong"
              (Handlers.DeleteTenant Demo.env "acme") Demo.acme_world) as (_ & H403 & _).
  destruct (APIKeyAuth_passes_iff "test-api-key" "Bearer test-api-key"
              (Handlers.DeleteTenant Demo.env "acme") Demo.acme_world) as (Hpass & _).
  split.
  - apply (H403 "wrong"); [reflexivity | discriminate].
  - rewrite (Hpass eq_refl). vm_compute. reflexivity.
Defined.

(** X22. The [CreateTenant] handler answers 400 to a body that does not
    decode, without calling the service; 201 with the tenant exactly when
    [Create] succeeds; and 500 to every error of [Create]: an invalid
    tenant ID and an ID that is already taken are answered 500 as well,
    with the cluster and the table untouched. *)
Theorem CreateTenant_status (E : Env) (image : string)
    (decoded : result CreateTenantRequest) (w : World) :
  (forall err, decoded = Err err ->
     Handlers.CreateTenant E image decoded w =
       (writeJSON 400 (ErrorBody (InvalidJSON err)), w)) /\
  (forall req, decoded = Ok req ->
     (forall e, validateTenantID (ct_TenantID req) = Some e ->
        Handlers.CreateTenant E image decoded w =
          (writeJSON 500 (ErrorBody (ErrorOf e)), w)) /\
     (is_Some (tenants w !! ct_TenantID req) ->
        StatusCode (Handlers.CreateTenant E image decoded w).1 = 500 /\
        (Handlers.CreateTenant E image decoded w).2 = w) /\
     (StatusCode (Handlers.CreateTenant E image decoded w).1 = 201 \/
      StatusCode (Handlers.CreateTenant E image decoded w).1 = 500) /\
     (StatusCode (Handlers.CreateTenant E image decoded w).1 = 201 ->
        is_Some (tenants (Handlers.CreateTenant E image decoded w).2 !! ct_TenantID req))).
Proof.
  split.
  - intros err ->. reflexivity.
  - intros req ->. unfold Handlers.CreateTenant.
    set (sreq := {| c_TenantID := ct_TenantID req; c_DisplayName := ct_DisplayName req;
                    c_Providers := ct_Providers req; c_Agents := ct_Agents req;
                    c_Channels := ct_Channels req;
                    c_Resources := to_Resources (ct_Resources req) |}).
    splits.
    + intros e He. now rewrite (Create_invalid E image sreq w e He).
    + intros Hex.
      destruct (Create_exists_unchanged E image sreq w Hex) as [e ->]. auto.
    + destruct (Create E image sreq w) as [[t | e] w']; auto.
    + destruct (Create E image sreq w) as [[t | e] w'] eqn:Hc; simpl; [|discriminate].
      intros _. exact (Create_Ok_stored E image sreq w t w' Hc).
Qed.

Lemma CreateTenant_status_witness :
  let body := {| ct_TenantID := "ACME"; ct_DisplayName := "ACME"; ct_Providers := None;
                 ct_Agents := None; ct_Channels := None; ct_Resources := None |} in
  StatusCode (Handlers.CreateTenant Demo.env Demo.image (Ok body) Demo.empty_world).1 = 500 /\
  StatusCode (Handlers.CreateTenant Demo.env Demo.image
                (Err (External "unexpected EOF")) Demo.empty_world).1 = 400.
Proof.
  cbv zeta.
  destruct (CreateTenant_status Demo.env Demo.image
              (Ok {| ct_TenantID := "ACME"; ct_DisplayName := "ACME"; ct_Providers := None;
                     ct_Agents := None; ct_Channels := None; ct_Resources := None |})
              Demo.empty_world) as [_ H].
  destruct (H _ eq_refl) as (Hinv & _).
  destruct (CreateTenant_status Demo.env Demo.image (Err (External "unexpected EOF"))
              Demo.empty_world) as [H400 _].
  split.
  - rewrite (Hinv _ eq_refl). reflexivity.
  - rewrite (H400 _ eq_refl). reflexivity.
Defined.

(** X23. For an ID without a record, when the store answers, only [GetTenant]
    answers 404: [DeleteTenant], [UpdateTenant] and [RestartTenant]
    answer 500, and none of the four changes the cluster or the table.
    For an ID with a record, [GetTenant] answers 200 with the stored
    tenant. *)
Theorem handlers_unknown_tenant (E : Env) (image : string) (id : string) (w : World) :
  db_error E (SelectTenant id) = None ->
  (tenants w !! id = None ->
   Handlers.GetTenant E id w =
     (writeJSON 404 (ErrorBody (Literal "tenant not found")), w) /\
   Handlers.DeleteTenant E id w =
     (writeJSON 500 (ErrorBody (ErrorOf (Errorf "tenant %q not found" [id]))), w) /\
   (forall req, Handlers.UpdateTenant E image id (Ok req) w =
     (writeJSON 500 (ErrorBody (ErrorOf (Errorf "tenant %q not found" [id]))), w)) /\
   (forall agentAt gatewayAt, Handlers.RestartTenant E agentAt gatewayAt id w =
     (writeJSON 500 (ErrorBody (ErrorOf (Errorf "tenant %q not found" [id]))), w))) /\
  (forall r, tenants w !! id = Some r ->
   Handlers.GetTenant E id w =
     (writeJSON 200 (TenantBody (toTenantResponse (tenant_of_row id r))), w)).
Proof.
  intros Hdb. split.
  - intros Hr. splits.
    + unfold Handlers.GetTenant. now rewrite (Get_answer E w id Hdb), Hr.
    + unfold Handlers.DeleteTenant, Delete, bind.
      now rewrite (Store_Get_answer E id w Hdb), Hr.
    + intros req. unfold Handlers.UpdateTenant, Update, bind.
      now rewrite (Store_Get_answer E id w Hdb), Hr.
    + intros agentAt gatewayAt. unfold Handlers.RestartTenant, Restart, bind.
      now rewrite (Store_Get_answer E id w Hdb), Hr.
  - intros r Hr. unfold Handlers.GetTenant. now rewrite (Get_answer E w id Hdb), Hr.
Qed.

Lemma handlers_unknown_tenant_witness :
  StatusCode (Handlers.GetTenant Demo.env "ghost" Demo.acme_world).1 = 404 /\
  StatusCode (Handlers.DeleteTenant Demo.env "ghost" Demo.acme_world).1 = 500 /\
  StatusCode (Handlers.GetTenant Demo.env "acme" Demo.acme_world).1 = 200.
Proof.
  destruct (handlers_unknown_tenant Demo.env Demo.image "ghost" Demo.acme_world eq_refl)
    as [H _].
  destruct H as (Hget & Hdel & _); [vm_compute; reflexivity|].
  destruct (handlers_unknown_tenant Demo.env Demo.image "acme" Demo.acme_world eq_refl)
    as [_ H].
  splits.
  - now rewrite Hget.
  - now rewrite Hdel.
  - rewrite (H Demo.acme_row); [reflexivity | vm_compute; reflexivity].
Defined.

(** ** Failures that are not compensated *)

(** X24. When the cluster refuses the manifests, [Create] returns that error,
    wrapped, stores nothing and attempts no cleanup: the requests issued
    are those of [Apply] and nothing more, so what [Apply] had patched
    before it failed stays in the cluster. *)
Theorem Create_apply_failure (E : Env) (image : string) (req : CreateRequest)
    (w w1 : World) (cfg manifests : string) (err : error) :
  validateTenantID (c_TenantID req) = None ->
  c_DisplayName req <> "" ->
  db_error E (SelectTenant (c_TenantID req)) = None ->
  tenants w !! c_TenantID req = None ->
  buildConfigJSON E (c_Providers req) (c_Agents req) (c_Channels req) = Ok cfg ->
  RenderAll E (ToVars (Create_tenant E req cfg) image) = Ok manifests ->
  Apply E manifests w = (Err err, w1) ->
  Create E image req w = (Err (Wrapf "apply manifests: %w" [] err), w1) /\
  tenants w1 = tenants w /\
  RemoteError (Wrapf "apply manifests: %w" [] err).
Proof.
  intros H1 H2 H3 H4 H5 H6 H7. splits.
  - unfold Create. rewrite H1.
    destruct (String.eqb_spec (c_DisplayName req) ""); [contradiction|].
    unfold bind, wrap, try, lift, fail.
    rewrite (Store_Get_answer E _ w H3), H4. simpl.
    now rewrite H5, H6, H7.
  - pose proof (Apply_tenants E manifests w) as Ht. now rewrite H7 in Ht.
  - eexists. left. reflexivity.
Qed.

(** X25. When the manifests of an [Update] have been applied and the store
    then refuses the update, [Update] returns the error of the store,
    wrapped, and nothing is undone: the table keeps the old record while
    the cluster has received the new manifests. *)
Theorem Update_store_failure (E : Env) (image : string) (id : string)
    (req : UpdateRequest) (w w1 : World) (r : Row) (t1 : Tenant) (manifests : string)
    (err : error) :
  tenants w !! id = Some r ->
  db_error E (SelectTenant id) = None ->
  Update_config E req (Update_renamed id req r) w = (Ok t1, w) ->
  RenderAll E (ToVars (Update_merged req t1) image) = Ok manifests ->
  Apply E manifests w = (Ok tt, w1) ->
  db_error E (UpdateTenant (set_UpdatedAt (store_Now E) (Update_merged req t1))) = Some err ->
  Update E image id req w =
    (Err (Wrapf "store update: %w" [] (Wrapf "update tenant: %w" [] err)), w1) /\
  tenants w1 = tenants w /\
  PersistenceError (Wrapf "store update: %w" [] (Wrapf "update tenant: %w" [] err)).
Proof.
  intros Hr Hdb Hcfg Hrender Happly Hup. splits.
  - unfold Update, bind. rewrite (Store_Get_answer E id w Hdb), Hr. simpl.
    fold (Update_renamed id req r). rewrite Hcfg.
    fold (Update_merged req t1). unfold wrap, lift. rewrite Hrender, Happly.
    unfold Store_Update. now rewrite Hup.
  - pose proof (Apply_tenants E manifests w) as Ht. now rewrite Happly in Ht.
  - eexists. right. right. reflexivity.
Qed.

Lemma Create_apply_failure_witness :
  let refused := Wrapf "apply %s/%s: %w" ["PersistentVolumeClaim"; "pvc.yaml.tmpl"]
                   (External "forbidden") in
  (Create Demo2.failing_patch Demo.image Demo.acme Demo.empty_world).1 =
    Err (Wrapf "apply manifests: %w" [] refused) /\
  tenants (Create Demo2.failing_patch Demo.image Demo.acme Demo.empty_world).2 = ∅ /\
  length (calls (Create Demo2.failing_patch Demo.image Demo.acme Demo.empty_world).2) = 6.
Proof.
  cbv zeta.
  destruct (Create_apply_failure Demo2.failing_patch Demo.image Demo.acme Demo.empty_world
              (Apply Demo2.failing_patch Demo.acme_manifests Demo.empty_world).2
              Demo.config Demo.acme_manifests
              (Wrapf "apply %s/%s: %w" ["PersistentVolumeClaim"; "pvc.yaml.tmpl"]
                 (External "forbidden")))
    as (Hc & Ht & _); try discriminate; try (vm_compute; reflexivity).
  rewrite Hc. splits; [reflexivity | exact Ht | vm_compute; reflexivity].
Defined.

Lemma Update_store_failure_witness :
  let req := {| u_DisplayName := "Acme Corp"; u_Providers := None; u_Agents := None;
                u_Channels := None; u_Resources := None |} in
  (Update Demo2.failing_update Demo.image "acme" req Demo.acme_world).1 =
    Err (Wrapf "store update: %w" []
           (Wrapf "update tenant: %w" [] (External "connection reset"))) /\
  tenants (Update Demo2.failing_update Demo.image "acme" req Demo.acme_world).2 =
    tenants Demo.acme_world.
Proof.
  cbv zeta.
  set (req := {| u_DisplayName := "Acme Corp"; u_Providers := None; u_Agents := None;
                 u_Channels := None; u_Resources := None |}).
  destruct (Update_store_failure Demo2.failing_update Demo.image "acme" req Demo.acme_world
              (Apply Demo2.failing_update Demo.acme_manifests Demo.acme_world).2
              Demo.acme_row (Update_renamed "acme" req Demo.acme_row) Demo.acme_manifests
              (External "connection reset"))
    as (Hu & Ht & _); try (vm_compute; reflexivity).
  rewrite Hu. split; [reflexivity | exact Ht].
Defined.

Lemma buildConfigJSON_document_witness :
  exists doc : object,
    buildConfigJSON Demo.env None (Some ∅) None = json_MarshalIndent Demo.env doc /\
    doc !! "agents" = Some (VObject ∅) /\ doc !! "providers" = None /\
    doc !! "host" = None.
Proof.
  destruct (buildConfigJSON_document None (Some ∅) None)
    as (doc & Henc & _ & Hp & Ha & _ & Hother).
  exists doc. splits.
  - apply Henc.
  - exact Ha.
  - exact Hp.
  - apply Hother; discriminate.
Defined.
